(** * oauth10a.signing_requests: a shallow embedding

    The module [oauth10a/signing_requests.py] signs an outgoing HTTP request
    as described by OAuth 1.0a, section 9.  Python 2 [str] values are byte
    strings and are modelled by [string]; dictionaries are association lists
    kept in their iteration order; dictionaries that the code mutates in place
    live in an object store addressed by references. *)

From Stdlib Require Import ZArith Ascii String List Lia Bool.
From stdpp Require Import base option list sorting gmap strings.

Local Open Scope string_scope.

(** ** Exceptions *)

Inductive exn : Set :=
| TypeError
| ValueError.

Inductive result (A : Type) : Type :=
| Ok (a : A)
| Raise (e : exn).
Arguments Ok {A} a.
Arguments Raise {A} e.

#[global] Instance result_ret : MRet result := @Ok.
#[global] Instance result_bind : MBind result := fun A B f m =>
  match m with
  | Ok a => f a
  | Raise e => Raise e
  end.
#[global] Instance result_fmap : FMap result := fun A B f m =>
  match m with
  | Ok a => Ok (f a)
  | Raise e => Raise e
  end.

(** ** Python 2 byte strings *)

Module PyStr.

(** [c in s] for a one-character [c]. *)
Fixpoint contains (c : ascii) (s : string) : bool :=
  match s with
  | EmptyString => false
  | String d s' => if Ascii.eqb c d then true else contains c s'
  end.

(** [c in chars], where [chars] stands for a set of characters. *)
Definition mem (c : ascii) (chars : string) : bool := contains c chars.

(** [sep.join(parts)]. *)
Fixpoint join (sep : string) (parts : list string) : string :=
  match parts with
  | [] => ""
  | [p] => p
  | p :: rest => p +:+ sep +:+ join sep rest
  end.

(** [''.join(parts)]. *)
Fixpoint cat (parts : list string) : string :=
  match parts with
  | [] => ""
  | p :: rest => p +:+ cat rest
  end.

(** [s[:n]] and [s[n:]] for [0 <= n]. *)
Fixpoint take (n : nat) (s : string) : string :=
  match n, s with
  | O, _ => ""
  | S _, EmptyString => ""
  | S n', String c s' => String c (take n' s')
  end.

Fixpoint drop (n : nat) (s : string) : string :=
  match n, s with
  | O, _ => s
  | S _, EmptyString => ""
  | S n', String _ s' => drop n' s'
  end.

(** [s.find(c)]: the index of the first [c], [None] for Python's [-1]. *)
Fixpoint find (c : ascii) (s : string) : option nat :=
  match s with
  | EmptyString => None
  | String d s' => if Ascii.eqb c d then Some O else S <$> find c s'
  end.

(** [s.rfind(c)]: the index of the last [c]. *)
Fixpoint rfind (c : ascii) (s : string) : option nat :=
  match s with
  | EmptyString => None
  | String d s' =>
      match rfind c s' with
      | Some i => Some (S i)
      | None => if Ascii.eqb c d then Some O else None
      end
  end.

(** [s.find(c, start)]. *)
Definition find_from (c : ascii) (start : nat) (s : string) : option nat :=
  (fun i => start + i) <$> find c (drop start s).

(** [s.split(c)]: all the fields between occurrences of [c]. *)
Fixpoint split (c : ascii) (s : string) : list string :=
  match s with
  | EmptyString => [""]
  | String d s' =>
      if Ascii.eqb c d then "" :: split c s'
      else match split c s' with
           | [] => [String d ""]
           | f :: fs => String d f :: fs
           end
  end.

Definition is_upper (c : ascii) : bool :=
  (65 <=? nat_of_ascii c)%nat && (nat_of_ascii c <=? 90)%nat.
Definition is_lower (c : ascii) : bool :=
  (97 <=? nat_of_ascii c)%nat && (nat_of_ascii c <=? 122)%nat.
Definition is_digit (c : ascii) : bool :=
  (48 <=? nat_of_ascii c)%nat && (nat_of_ascii c <=? 57)%nat.

Definition lower_char (c : ascii) : ascii :=
  if is_upper c then ascii_of_nat (nat_of_ascii c + 32) else c.
Definition upper_char (c : ascii) : ascii :=
  if is_lower c then ascii_of_nat (nat_of_ascii c - 32) else c.

Fixpoint map_chars (f : ascii -> ascii) (s : string) : string :=
  match s with
  | EmptyString => ""
  | String c s' => String (f c) (map_chars f s')
  end.

(** [s.lower()] and [s.upper()] (the C locale: ASCII letters only). *)
Definition lower : string -> string := map_chars lower_char.
Definition upper : string -> string := map_chars upper_char.

(** [all(c in chars for c in s)]. *)
Fixpoint all_in (chars : string) (s : string) : bool :=
  match s with
  | EmptyString => true
  | String c s' => mem c chars && all_in chars s'
  end.

(** [s.replace(a, b)] for one-character [a] and [b]. *)
Definition replace (a b : ascii) : string -> string :=
  map_chars (fun c => if Ascii.eqb c a then b else c).

(** Comparison of two [str]: byte by byte, a proper prefix first. *)
Definition cmp : string -> string -> comparison := String.compare.

(** Comparison of two 2-tuples of [str], as [list.sort] uses it: the first
    components decide unless they are equal. *)
Definition tuple_leb (p q : string * string) : bool :=
  match cmp p.1 q.1 with
  | Lt => true
  | Gt => false
  | Eq => match cmp p.2 q.2 with Gt => false | _ => true end
  end.

Definition tuple_le (p q : string * string) : Prop := tuple_leb p q = true.

#[global] Instance tuple_le_dec p q : Decision (tuple_le p q) :=
  bool_eq_dec (tuple_leb p q) true.

(** [l.sort()] on a list of such tuples.  The order is total and
    antisymmetric, so every correct sort returns the same list. *)
Definition sort : list (string * string) -> list (string * string) :=
  merge_sort tuple_le.

End PyStr.

(** ** Dictionaries and the object store *)

Module PyDict.

(** A [dict] with [str] keys and values, listed in iteration order.  CPython
    2 iterates a dict in hash-table order, which the caller does not control;
    the model fixes no relation between the order of insertion and the
    order of iteration beyond what the operations below do. *)
Abbreviation dict := (list (string * string)).

(** Every key at most once. *)
Definition wf (d : dict) : Prop := NoDup d.*1.

Definition keys (d : dict) : list string := d.*1.

(** [d[k]]. *)
Fixpoint getitem (k : string) (d : dict) : option string :=
  match d with
  | [] => None
  | (k', v) :: d' => if String.eqb k k' then Some v else getitem k d'
  end.

(** [d.pop(k, None)], the returned value dropped. *)
Definition pop (k : string) (d : dict) : dict :=
  filter (fun kv => negb (String.eqb kv.1 k)) d.

(** [d[k] = v]. *)
Fixpoint setitem (k v : string) (d : dict) : dict :=
  match d with
  | [] => [(k, v)]
  | (k', v') :: d' =>
      if String.eqb k k' then (k, v) :: d' else (k', v') :: setitem k v d'
  end.

(** [d.items()]. *)
Definition items (d : dict) : list (string * string) :=
  omap (fun k => (fun v => (k, v)) <$> getitem k d) (keys d).

End PyDict.

(** References to dict objects, and the store of the objects they name. *)
Abbreviation ref := positive.
Abbreviation store := (gmap positive (list (string * string))).

(** The object behind a reference.  A Python reference always names a live
    object; the default is never reached from a well-formed call. *)
Definition deref (h : store) (l : ref) : PyDict.dict := default [] (h !! l).

(** ** urllib (CPython 2.7) *)

Module Urllib.

Definition always_safe : string :=
  "ABCDEFGHIJKLMNOPQRSTUVWXYZabcdefghijklmnopqrstuvwxyz0123456789_.-".

Definition hex_digit (n : nat) : ascii :=
  match String.get n "0123456789ABCDEF" with
  | Some c => c
  | None => "0"%char
  end.

(** ['%{:02X}'.format(i)]. *)
Definition percent (c : ascii) : string :=
  let i := nat_of_ascii c in
  String "%" (String (hex_digit (i / 16)) (String (hex_digit (i mod 16)) "")).

(** The entry of [_safe_map], updated with the characters of [safe]. *)
Definition quoter (safe : string) (c : ascii) : string :=
  if PyStr.mem c safe then String c ""
  else if (nat_of_ascii c <? 128)%nat && PyStr.mem c always_safe
       then String c ""
       else percent c.

(** [urllib.quote(s, safe)] on a [str]. *)
Definition quote (s safe : string) : string :=
  match s with
  | EmptyString => s
  | _ =>
      if PyStr.all_in (always_safe +:+ safe) s then s
      else PyStr.cat (map (quoter safe) (list_ascii_of_string s))
  end.

(** [urllib.quote_plus(s)], with its default [safe='']. *)
Definition quote_plus (s : string) : string :=
  if PyStr.contains " " s
  then PyStr.replace " " "+" (quote s " ")
  else quote s "".

(** [urllib.urlencode(query)] on a dict (so [doseq] is off): the items in
    iteration order. *)
Definition urlencode (query : PyDict.dict) : string :=
  PyStr.join "&"
    (map (fun kv => quote_plus kv.1 +:+ "=" +:+ quote_plus kv.2)
         (PyDict.items query)).

End Urllib.

(** ** signing_requests.py: the parameter normalizer *)

(** [str(x)] on a value that is a [str] already. *)
Definition py_str (x : string) : string := x.

(** [normalized_request_parameters(oauth_params, get_params, post_params)].
    The three arguments are references: [oauth_params] is modified in place,
    and [None] stands for an argument left out. *)
Definition normalized_request_parameters
    (oauth_params : ref) (get_params post_params : option ref)
    (h : store) : string * store :=
  (* oauth_params.pop('oauth_signature', None) *)
  let h := alter (PyDict.pop "oauth_signature") oauth_params h in
  (* [d for d in [get_params, post_params] if d is not None] *)
  let additional_params := omap id [get_params; post_params] in
  let params :=
    flat_map
      (fun d =>
         omap (fun k => (fun v => (py_str k, py_str v))
                          <$> PyDict.getitem k (deref h d))
              (PyDict.keys (deref h d)))
      (oauth_params :: additional_params) in
  let params := PyStr.sort params in
  (PyStr.join "&" (map (fun param => PyStr.join "=" [param.1; param.2]) params),
   h).

(** ** Integers and their decimal form *)

Module PyInt.

Definition digit_char (d : Z) : ascii := ascii_of_N (Z.to_N (48 + d)).

Fixpoint digits (fuel : nat) (n : Z) (acc : string) : string :=
  match fuel with
  | O => acc
  | S fuel' =>
      let acc' := String (digit_char (n mod 10)) acc in
      if (n / 10 =? 0)%Z then acc' else digits fuel' (n / 10) acc'
  end.

(** [str(n)] on an [int]. *)
Definition str (n : Z) : string :=
  if (n <? 0)%Z
  then String "-" (digits (S (Z.to_nat (Z.log2 (- n)))) (- n) "")
  else digits (S (Z.to_nat (Z.log2 n))) n "".

(** The white space that [int] skips on both sides. *)
Definition is_space (c : ascii) : bool :=
  let n := nat_of_ascii c in
  (n =? 32)%nat || ((9 <=? n)%nat && (n <=? 13)%nat).

Fixpoint lstrip (s : string) : string :=
  match s with
  | String c s' => if is_space c then lstrip s' else s
  | EmptyString => ""
  end.

Fixpoint rstrip (s : string) : string :=
  match s with
  | EmptyString => ""
  | String c s' =>
      match rstrip s' with
      | EmptyString => if is_space c then "" else String c ""
      | t => String c t
      end
  end.

Fixpoint of_digits (acc : Z) (s : string) : option Z :=
  match s with
  | EmptyString => Some acc
  | String c s' =>
      if PyStr.is_digit c
      then of_digits (10 * acc + (Z.of_nat (nat_of_ascii c) - 48)) s'
      else None
  end.

(** [int(s, 10)]: optional white space, an optional sign, decimal digits. *)
Definition of_str (s : string) : result Z :=
  let body := rstrip (lstrip s) in
  let '(sign, ds) :=
    match body with
    | String "-" t => ((-1)%Z, t)
    | String "+" t => (1%Z, t)
    | _ => (1%Z, body)
    end in
  match ds with
  | EmptyString => Raise ValueError
  | _ => match of_digits 0 ds with
         | Some n => Ok (sign * n)%Z
         | None => Raise ValueError
         end
  end.

End PyInt.

(** ** urlparse (CPython 2.7) *)

Module Urlparse.

Definition uses_netloc : list string :=
  ["ftp"; "http"; "gopher"; "nntp"; "telnet"; "imap"; "wais"; "file"; "mms";
   "https"; "shttp"; "snews"; "prospero"; "rtsp"; "rtspu"; "rsync"; "";
   "svn"; "svn+ssh"; "sftp"; "nfs"; "git"; "git+ssh"].

Definition uses_params : list string :=
  ["ftp"; "hdl"; "prospero"; "http"; "imap"; "https"; "shttp"; "rtsp";
   "rtspu"; "sip"; "sips"; "mms"; ""; "sftp"; "tel"].

Definition scheme_chars : string :=
  "abcdefghijklmnopqrstuvwxyzABCDEFGHIJKLMNOPQRSTUVWXYZ0123456789+-.".

Definition str_in (s : string) (l : list string) : bool :=
  existsb (String.eqb s) l.

(** The six fields of a [ParseResult]; [urlsplit] leaves [params] empty. *)
Record ParseResult : Set := mkParseResult {
  scheme : string;
  netloc : string;
  path : string;
  params : string;
  query : string;
  fragment : string
}.

(** [_splitnetloc(url, start)]: the network location runs up to the first
    of [/], [?] and [#]. *)
Definition _splitnetloc (url : string) (start : nat) : string * string :=
  let delim :=
    fold_left
      (fun delim c =>
         match PyStr.find_from c start url with
         | Some wdelim => Nat.min delim wdelim
         | None => delim
         end)
      ["/"; "?"; "#"]%char (String.length url) in
  (PyStr.take (delim - start) (PyStr.drop start url), PyStr.drop delim url).

(** [a, b = s.split(c, 1)] under the guard [c in s]. *)
Definition cut (c : ascii) (s : string) : string * string :=
  match PyStr.find c s with
  | Some i => (PyStr.take i s, PyStr.drop (S i) s)
  | None => (s, "")
  end.

(** The part of [urlsplit] after the scheme is settled; the code has it
    twice, once for the scheme [http] and once for the others. *)
Definition split_after_scheme (scheme url : string) : result ParseResult :=
  '(netloc, url) ←
    (if String.eqb (PyStr.take 2 url) "//"
     then
       let '(netloc, url) := _splitnetloc url 2 in
       if (PyStr.contains "[" netloc && negb (PyStr.contains "]" netloc))
          || (PyStr.contains "]" netloc && negb (PyStr.contains "[" netloc))
       then Raise ValueError
       else Ok (netloc, url)
     else Ok ("", url));
  let '(url, fragment) :=
    if PyStr.contains "#" url then cut "#" url else (url, "") in
  let '(url, query) :=
    if PyStr.contains "?" url then cut "?" url else (url, "") in
  Ok (mkParseResult scheme netloc url "" query fragment).

(** [urlsplit(url)] with the default [scheme=''] and fragments allowed.
    The result cache does not change what is returned and is left out. *)
Definition urlsplit (url : string) : result ParseResult :=
  match PyStr.find ":" url with
  | Some (S i') =>
      let i := S i' in
      if String.eqb (PyStr.take i url) "http"
      then split_after_scheme (PyStr.lower (PyStr.take i url))
                              (PyStr.drop (i + 1) url)
      else if PyStr.all_in scheme_chars (PyStr.take i url)
      then
        let rest := PyStr.drop (i + 1) url in
        if String.eqb rest "" || negb (PyStr.all_in "0123456789" rest)
        then split_after_scheme (PyStr.lower (PyStr.take i url)) rest
        else split_after_scheme "" url
      else split_after_scheme "" url
  | _ => split_after_scheme "" url
  end.

(** [_splitparams(url)], called when [';' in url]. *)
Definition _splitparams (url : string) : string * string :=
  if PyStr.contains "/" url
  then
    match PyStr.find_from ";" (default O (PyStr.rfind "/" url)) url with
    | Some i => (PyStr.take i url, PyStr.drop (S i) url)
    | None => (url, "")
    end
  else
    match PyStr.find ";" url with
    | Some i => (PyStr.take i url, PyStr.drop (S i) url)
    | None => (PyStr.take (String.length url - 1) url, url)
    end.

(** [urlparse(url)]. *)
Definition urlparse (url : string) : result ParseResult :=
  r ← urlsplit url;
  let '(url, params) :=
    if str_in (scheme r) uses_params && PyStr.contains ";" (path r)
    then _splitparams (path r)
    else (path r, "") in
  Ok (mkParseResult (scheme r) (netloc r) url params (query r) (fragment r)).

(** [l[-1]] and [l[0]], [l[1]] on the result of a [split], which is never
    empty. *)
Definition last_field (l : list string) : string := List.last l "".
Definition field (n : nat) (l : list string) : string := nth n l "".

(** The [hostname] property; [None] is Python's [None]. *)
Definition hostname (r : ParseResult) : option string :=
  let netloc := last_field (PyStr.split "@" (netloc r)) in
  if PyStr.contains "[" netloc && PyStr.contains "]" netloc
  then Some (PyStr.lower (PyStr.drop 1 (field 0 (PyStr.split "]" netloc))))
  else if PyStr.contains ":" netloc
  then Some (PyStr.lower (field 0 (PyStr.split ":" netloc)))
  else if String.eqb netloc ""
  then None
  else Some (PyStr.lower netloc).

(** The [port] property. *)
Definition port (r : ParseResult) : result (option Z) :=
  let netloc :=
    last_field (PyStr.split "]" (last_field (PyStr.split "@" (netloc r)))) in
  if PyStr.contains ":" netloc
  then
    let port := field 1 (PyStr.split ":" netloc) in
    if String.eqb port "" then Ok None
    else
      port ← PyInt.of_str port;
      if (0 <=? port)%Z && (port <=? 65535)%Z then Ok (Some port)
      else Ok None
  else Ok None.

(** [urlunsplit((scheme, netloc, url, query, fragment))]; a [None] field is
    as false as an empty one. *)
Definition urlunsplit (scheme netloc url : string)
    (query fragment : option string) : string :=
  let url :=
    if negb (String.eqb netloc "")
       || (negb (String.eqb scheme "") && str_in scheme uses_netloc
           && negb (String.eqb (PyStr.take 2 url) "//"))
    then
      let url :=
        if negb (String.eqb url "")
           && negb (String.eqb (PyStr.take 1 url) "/")
        then "/" +:+ url else url in
      "//" +:+ netloc +:+ url
    else url in
  let url := if negb (String.eqb scheme "") then scheme +:+ ":" +:+ url
             else url in
  let url := match query with
             | Some (String c q) => url +:+ "?" +:+ String c q
             | _ => url
             end in
  match fragment with
  | Some (String c f) => url +:+ "#" +:+ String c f
  | _ => url
  end.

(** [urlunparse((scheme, netloc, url, params, query, fragment))]. *)
Definition urlunparse (scheme netloc url : string)
    (params query fragment : option string) : string :=
  let url := match params with
             | Some (String c p) => url +:+ ";" +:+ String c p
             | _ => url
             end in
  urlunsplit scheme netloc url query fragment.

End Urlparse.

(** ** signing_requests.py: the request URL *)

(** [request_url(url)], section 9.1.2.  [':'.join(netloc)] raises a
    [TypeError] when the host name is [None]. *)
Definition request_url (url : string) : result string :=
  parsed ← Urlparse.urlparse url;
  (* canonicalize the port if redundant with scheme *)
  let hostname := Urlparse.hostname parsed in
  port ← Urlparse.port parsed;
  let port :=
    if String.eqb (Urlparse.scheme parsed) "http" && bool_decide (port = Some 80%Z)
    then None else port in
  let port :=
    if String.eqb (Urlparse.scheme parsed) "https" && bool_decide (port = Some 443%Z)
    then None else port in
  let netloc :=
    match port with
    | Some p => [hostname; Some (PyInt.str p)]
    | None => [hostname]
    end in
  netloc ← match mapM id netloc with
           | Some parts => Ok (PyStr.join ":" parts)
           | None => Raise TypeError
           end;
  Ok (Urlparse.urlunparse (Urlparse.scheme parsed) netloc
        (Urlparse.path parsed) None None None).

(** ** hashlib.sha1, hmac and base64 *)

(** Octets as integers below 256. *)
Definition bytes_of_str (s : string) : list Z :=
  map (fun c => Z.of_N (N_of_ascii c)) (list_ascii_of_string s).
Definition str_of_bytes (bs : list Z) : string :=
  string_of_list_ascii (map (fun b => ascii_of_N (Z.to_N b)) bs).

Module Sha1.
Local Open Scope Z_scope.

(** 32-bit words: every sum wraps around at [2^32]. *)
Definition w32 (x : Z) : Z := Z.land x 4294967295.
Definition add32 (x y : Z) : Z := w32 (x + y).
Definition rotl (n x : Z) : Z :=
  w32 (Z.lor (Z.shiftl x n) (Z.shiftr x (32 - n))).
Definition not32 (x : Z) : Z := Z.lxor x 4294967295.

(** Big-endian octets of a number, [n] of them. *)
Fixpoint be_bytes (n : nat) (x : Z) : list Z :=
  match n with
  | O => []
  | S n' => Z.land (Z.shiftr x (8 * Z.of_nat n')) 255 :: be_bytes n' x
  end.

(** The message, one 1 bit, zeros up to 56 modulo 64, the bit length. *)
Definition pad (msg : list Z) : list Z :=
  let len := Z.of_nat (List.length msg) in
  let zeros := Z.to_nat ((55 - len) mod 64) in
  (msg ++ [128] ++ repeat 0 zeros ++ be_bytes 8 (8 * len))%list.

Fixpoint words (bs : list Z) : list Z :=
  match bs with
  | a :: b :: c :: d :: rest =>
      (a * 16777216 + b * 65536 + c * 256 + d) :: words rest
  | _ => []
  end.

(** The message schedule, latest word first. *)
Fixpoint expand (n : nat) (rw : list Z) : list Z :=
  match n with
  | O => rw
  | S n' =>
      let x := Z.lxor (Z.lxor (Z.lxor (nth 2 rw 0) (nth 7 rw 0))
                              (nth 13 rw 0)) (nth 15 rw 0) in
      expand n' (rotl 1 x :: rw)
  end.

Definition schedule (block : list Z) : list Z :=
  rev (expand 64 (rev (words block))).

Definition state : Type := Z * Z * Z * Z * Z.

Definition round (t : nat) (st : state) (w : Z) : state :=
  let '(a, b, c, d, e) := st in
  let '(f, k) :=
    if (t <? 20)%nat
    then (Z.lor (Z.land b c) (Z.land (not32 b) d), 1518500249)
    else if (t <? 40)%nat
    then (Z.lxor (Z.lxor b c) d, 1859775393)
    else if (t <? 60)%nat
    then (Z.lor (Z.lor (Z.land b c) (Z.land b d)) (Z.land c d), 2400959708)
    else (Z.lxor (Z.lxor b c) d, 3395469782) in
  let temp := add32 (add32 (add32 (add32 (rotl 5 a) f) e) k) w in
  (temp, a, rotl 30 b, c, d).

Fixpoint rounds (t : nat) (ws : list Z) (st : state) : state :=
  match ws with
  | [] => st
  | w :: ws' => rounds (S t) ws' (round t st w)
  end.

Definition compress (st : state) (block : list Z) : state :=
  let '(h0, h1, h2, h3, h4) := st in
  let '(a, b, c, d, e) := rounds 0 (schedule block) st in
  (add32 h0 a, add32 h1 b, add32 h2 c, add32 h3 d, add32 h4 e).

Fixpoint blocks (n : nat) (bs : list Z) (st : state) : state :=
  match n with
  | O => st
  | S n' => blocks n' (skipn 64 bs) (compress st (firstn 64 bs))
  end.

Definition init : state :=
  (1732584193, 4023233417, 2562383102, 271733878, 3285377520).

(** [hashlib.sha1(msg).digest()]. *)
Definition digest (msg : list Z) : list Z :=
  let padded := pad msg in
  let '(h0, h1, h2, h3, h4) := blocks (List.length padded / 64) padded init in
  (be_bytes 4 h0 ++ be_bytes 4 h1 ++ be_bytes 4 h2
     ++ be_bytes 4 h3 ++ be_bytes 4 h4)%list.

End Sha1.

Module Hmac.

Definition blocksize : nat := 64.

(** [hmac.new(key, msg=msg, digestmod=hashlib.sha1).digest()]. *)
Definition digest (key msg : list Z) : list Z :=
  let key := if (blocksize <? List.length key)%nat then Sha1.digest key else key in
  let key := (key ++ repeat 0%Z (blocksize - List.length key))%list in
  let inner := Sha1.digest (map (Z.lxor 54) key ++ msg)%list in
  Sha1.digest (map (Z.lxor 92) key ++ inner)%list.

End Hmac.

Module Base64.
Local Open Scope Z_scope.

Definition alphabet : string :=
  "ABCDEFGHIJKLMNOPQRSTUVWXYZabcdefghijklmnopqrstuvwxyz0123456789+/".

Definition char (i : Z) : ascii :=
  match String.get (Z.to_nat i) alphabet with
  | Some c => c
  | None => "="%char
  end.

(** [base64.b64encode(s)]: three octets give four characters, the last
    group is filled with [=]. *)
Fixpoint encode (bs : list Z) : string :=
  match bs with
  | [] => ""
  | [a] =>
      String (char (a / 4)) (String (char (a mod 4 * 16)) "==")
  | [a; b] =>
      String (char (a / 4))
        (String (char (a mod 4 * 16 + b / 16))
           (String (char (b mod 16 * 4)) "="))
  | a :: b :: c :: rest =>
      String (char (a / 4))
        (String (char (a mod 4 * 16 + b / 16))
           (String (char (b mod 16 * 4 + c / 64))
              (String (char (c mod 64)) (encode rest))))
  end.

Definition b64encode (s : string) : string := encode (bytes_of_str s).

End Base64.

(** ** signing_requests.py: the signature base string *)

(** [signature_base_string(http_method, url, oauth_params, get_params,
    post_params)], section 9.1.3. *)
Definition signature_base_string (http_method url : string)
    (oauth_params : ref) (get_params post_params : option ref)
    (h : store) : result (string * store) :=
  let http_method := PyStr.upper http_method in
  url ← request_url url;
  let '(params, h) :=
    normalized_request_parameters oauth_params get_params post_params h in
  let request_elements := [http_method; url; params] in
  let request_elements := map Urllib.quote_plus request_elements in
  Ok (PyStr.join "&" request_elements, h).

(** ** The request and the signers *)

(** The fields of a [requests] request that a signer can reach: [params] are
    the query parameters and [data] the form body. *)
Record Request : Type := mkRequest {
  method : string;
  url : string;
  headers : PyDict.dict;
  params : PyDict.dict;
  data : PyDict.dict
}.

Definition set_url (u : string) (r : Request) : Request :=
  mkRequest (method r) u (headers r) (params r) (data r).
Definition set_header (k v : string) (r : Request) : Request :=
  mkRequest (method r) (url r) (PyDict.setitem k v (headers r))
            (params r) (data r).

(** [oauth10a.utils] is not among the sources at hand.  A signing call asks
    it for one timestamp, an integer, and one nonce, a string; the two
    answers are taken as given. *)
Record Utils : Set := mkUtils {
  timestamp : Z;
  nonce : string
}.

Module AuthBase.

Record t : Set := mk {
  consumer_key : string;
  consumer_secret : string;
  token_key : string;
  token_secret : string;
  callback_url : string
}.

(** [AuthBase(consumer_key, consumer_secret, token_key=None,
    token_secret=None, callback_url='oob')]. *)
Definition __init__ (consumer_key consumer_secret : string)
    (token_key token_secret : option string) (callback_url : string) : t :=
  mk consumer_key consumer_secret
     (default "" token_key) (default "" token_secret) callback_url.

Definition signature_base_string (self : t) (r : Request)
    (oauth_params : ref) (h : store) : result (string * store) :=
  signature_base_string (method r) (url r) oauth_params None None h.

(** [AuthBase.__call__(self, r)] with the [generate_signature] of the
    subclass.  [oauth_params] is a fresh dict, the only object of the call's
    own store.  Its entries are listed as the literal writes them; CPython 2
    would iterate them in hash order, and no property below depends on the
    order in which they are serialized. *)
Definition __call__
    (generate_signature :
       t -> Request -> ref -> store -> result (string * store))
    (self : t) (utils : Utils) (r : Request) : result Request :=
  let oauth_params : ref := 1%positive in
  let h : store :=
    {[ oauth_params :=
         [("oauth_consumer_key", consumer_key self);
          ("oauth_signature_method", "HMAC-SHA1");
          ("oauth_timestamp", PyInt.str (timestamp utils));
          ("oauth_nonce", nonce utils);
          ("oauth_version", "1.0");
          ("oauth_callback", callback_url self)] ]} in
  '(oauth_signature, h) ← generate_signature self r oauth_params h;
  let h :=
    alter (PyDict.setitem "oauth_signature" oauth_signature) oauth_params h in
  let params := Urllib.urlencode (deref h oauth_params) in
  if String.eqb (method r) "GET"
  then Ok (set_url (url r +:+ "?" +:+ params) r)
  else Ok (set_header "Authorization" ("OAuth " +:+ params) r).

End AuthBase.

Module HMACSHA1Auth.

(** [hmac.new(key, msg=s, digestmod=hashlib.sha1).digest()] on [str]. *)
Definition hmac_sha1 (key s : string) : string :=
  str_of_bytes (Hmac.digest (bytes_of_str key) (bytes_of_str s)).

Definition signing_key (self : AuthBase.t) : string :=
  Urllib.quote_plus (AuthBase.consumer_secret self) +:+ "&"
    +:+ Urllib.quote_plus (AuthBase.token_secret self).

(** [HMACSHA1Auth.generate_signature(self, r, oauth_params)], 9.2.1. *)
Definition generate_signature (self : AuthBase.t) (r : Request)
    (oauth_params : ref) (h : store) : result (string * store) :=
  let signing_key := signing_key self in
  '(s, h) ← AuthBase.signature_base_string self r oauth_params h;
  let s := hmac_sha1 signing_key s in
  let s := Base64.b64encode s in
  Ok (s, h).

Definition __call__ : AuthBase.t -> Utils -> Request -> result Request :=
  AuthBase.__call__ generate_signature.

End HMACSHA1Auth.

Module RSASHA1Auth.

(** [RSASHA1Auth.__call__(self, r)]: the body is [return r]. *)
Definition __call__ (self : AuthBase.t) (utils : Utils) (r : Request)
    : result Request :=
  Ok r.

End RSASHA1Auth.

Module PlaintextAuth.

(** [PlaintextAuth.__call__(self, r)]: the body is [return r]. *)
Definition __call__ (self : AuthBase.t) (utils : Utils) (r : Request)
    : result Request :=
  Ok r.

End PlaintextAuth.

(** The spec's [SignatureMethod] picks the class whose instance is called. *)
Inductive SignatureMethod : Set :=
| HMAC_SHA1
| RSA_SHA1
| PLAINTEXT.

Definition sign (m : SignatureMethod)
    : AuthBase.t -> Utils -> Request -> result Request :=
  match m with
  | HMAC_SHA1 => HMACSHA1Auth.__call__
  | RSA_SHA1 => RSASHA1Auth.__call__
  | PLAINTEXT => PlaintextAuth.__call__
  end.

(** ** The spec's reading of two notions, for comparison with the code *)

Module Spec.

(** Section 4.2 of the spec: letters, digits and [-_.~] stay, everything
    else becomes [%XX]; so a space becomes [%20]. *)
Definition unreserved (c : ascii) : bool :=
  PyStr.is_upper c || PyStr.is_lower c || PyStr.is_digit c
  || PyStr.mem c "-_.~".


Definition percent_encode_char (c : ascii) : string :=
  if unreserved c then String c "" else Urllib.percent c.

Definition percent_encode (s : string) : string :=
  PyStr.cat (map percent_encode_char (list_ascii_of_string s)).

(** "Lexicographically by byte value": the first differing byte decides,
    and a proper prefix comes first. *)
Inductive bytes_lt : string -> string -> Prop :=
| bytes_lt_prefix c t : bytes_lt "" (String c t)
| bytes_lt_head a b s t :
    (nat_of_ascii a < nat_of_ascii b)%nat ->
    bytes_lt (String a s) (String b t)
| bytes_lt_tail a s t : bytes_lt s t -> bytes_lt (String a s) (String a t).

(** By name, and by value for two pairs of one name. *)
Definition pair_le (p q : string * string) : Prop :=
  bytes_lt p.1 q.1 \/ (p.1 = q.1 /\ (p.2 = q.2 \/ bytes_lt p.2 q.2)).


End Spec.

(** The pairs that the normalizer collects from the objects behind [refs]. *)
Definition collected (h : store) (refs : list ref) : list (string * string) :=
  flat_map (fun d => PyDict.items (deref h d)) refs.

(** The references that one call of the normalizer reads. *)
Definition sources (oauth_params : ref) (get_params post_params : option ref)
    : list ref :=
  oauth_params :: omap id [get_params; post_params].

(** ** Names for the intermediate values of a signing call *)

(** The dict literal of [AuthBase.__call__]. *)
Definition oauth_parameter_set (self : AuthBase.t) (utils : Utils)
    : PyDict.dict :=
  [("oauth_consumer_key", AuthBase.consumer_key self);
   ("oauth_signature_method", "HMAC-SHA1");
   ("oauth_timestamp", PyInt.str (timestamp utils));
   ("oauth_nonce", nonce utils);
   ("oauth_version", "1.0");
   ("oauth_callback", AuthBase.callback_url self)].

(** The string that is signed for [r] once its URL has been canonicalized to
    [u]: the method, [u] and the normalized OAuth parameters, and nothing
    else of the request. *)
Definition base_string (self : AuthBase.t) (utils : Utils) (r : Request)
    (u : string) : string :=
  PyStr.join "&"
    (map Urllib.quote_plus
       [PyStr.upper (method r); u;
        (normalized_request_parameters 1%positive None None
           {[ 1%positive := oauth_parameter_set self utils ]}).1]).

(** The value stored under [oauth_signature]. *)
Definition signature_of (self : AuthBase.t) (base : string) : string :=
  Base64.b64encode
    (HMACSHA1Auth.hmac_sha1 (HMACSHA1Auth.signing_key self) base).

(** The serialized OAuth parameters that are attached to the request. *)
Definition serialized (self : AuthBase.t) (utils : Utils) (sig : string)
    : string :=
  Urllib.urlencode
    (PyDict.setitem "oauth_signature" sig (oauth_parameter_set self utils)).

(** How often [c] occurs in [s]. *)
Fixpoint count_char (c : ascii) (s : string) : nat :=
  match s with
  | EmptyString => O
  | String d s' => (if Ascii.eqb c d then 1 else 0) + count_char c s'
  end.

(** ** Absolute URLs of the common shape *)

(** [scheme://host[:port]path[?query][#fragment]]: no user information, a
    registered name or an IPv4 address as host, a decimal port. *)
Module Url.

Record t : Set := mk {
  scheme : string;
  host : string;
  port : option string;
  path : string;
  query : option string;
  fragment : option string
}.

(** An optional part with the character that introduces it. *)
Definition part (c : ascii) (o : option string) : string :=
  match o with
  | Some x => String c x
  | None => ""
  end.

Definition render (a : t) : string :=
  scheme a +:+ "://" +:+ host a +:+ part ":" (port a) +:+ path a
    +:+ part "?" (query a) +:+ part "#" (fragment a).

Definition none_of (chars : string) (s : string) : bool :=
  forallb (fun c => negb (PyStr.contains c s)) (list_ascii_of_string chars).

Definition nonempty (s : string) : bool :=
  match s with
  | EmptyString => false
  | _ => true
  end.

(** The parts are what they are called: a scheme of scheme characters, a
    host and a path free of the delimiters that end them, a port of digits,
    an absolute or empty path. *)
Definition wf (a : t) : bool :=
  nonempty (scheme a) && PyStr.all_in Urlparse.scheme_chars (scheme a)
  && nonempty (host a) && none_of "/?#@[]:" (host a)
  && match port a with
     | Some ds => nonempty ds && PyStr.all_in "0123456789" ds
     | None => true
     end
  && match path a with
     | EmptyString => true
     | String c _ => Ascii.eqb c "/"
     end
  && none_of "?#" (path a)
  && match query a with
     | Some q => none_of "#" q
     | None => true
     end.

(** The number that a port of digits denotes. *)
Definition port_number (ds : string) : Z :=
  default 0%Z (PyInt.of_digits 0 ds).

(** The port as it appears in the canonical URL. *)
Definition kept_port (a : t) : string :=
  match port a with
  | None => ""
  | Some ds =>
      let n := port_number ds in
      if (String.eqb (PyStr.lower (scheme a)) "http" && (n =? 80)%Z)
         || (String.eqb (PyStr.lower (scheme a)) "https" && (n =? 443)%Z)
         || (65535 <? n)%Z
      then ""
      else ":" +:+ PyInt.str n
  end.

(** The path as it appears in the canonical URL: for the schemes that take
    parameters, the parameters of the last segment are cut off. *)
Definition kept_path (a : t) : string :=
  if Urlparse.str_in (PyStr.lower (scheme a)) Urlparse.uses_params
     && PyStr.contains ";" (path a)
  then (Urlparse._splitparams (path a)).1
  else path a.

Definition canonical (a : t) : string :=
  PyStr.lower (scheme a) +:+ "://" +:+ PyStr.lower (host a)
    +:+ kept_port a +:+ kept_path a.

End Url.

(** The well-formedness conditions, one by one. *)
Record wf_parts (a : Url.t) : Prop := {
  wf_scheme_nonempty : Url.nonempty (Url.scheme a) = true;
  wf_scheme_chars : PyStr.all_in Urlparse.scheme_chars (Url.scheme a) = true;
  wf_host_nonempty : Url.nonempty (Url.host a) = true;
  wf_host_chars : Url.none_of "/?#@[]:" (Url.host a) = true;
  wf_port :
    match Url.port a with
    | Some ds => Url.nonempty ds = true /\ PyStr.all_in "0123456789" ds = true
    | None => True
    end;
  wf_path_abs :
    match Url.path a with
    | EmptyString => True
    | String c _ => c = "/"%char
    end;
  wf_path_chars : Url.none_of "?#" (Url.path a) = true;
  wf_query :
    match Url.query a with
    | Some q => Url.none_of "#" q = true
    | None => True
    end
}.

(** A name free of [&] and [=] with a value free of [&]. *)
Definition plain_pair (p : string * string) : Prop :=
  PyStr.contains "&" p.1 = false /\ PyStr.contains "=" p.1 = false
  /\ PyStr.contains "&" p.2 = false.

(** ** quote_plus, character by character *)

Module Quoted.

(** What [quote_plus] makes of one character. *)
Definition char (c : ascii) : string :=
  if Ascii.eqb c " " then "+" else Urllib.quoter "" c.

(** The characters that [quote_plus] can put out. *)
Definition alphabet : string := Urllib.always_safe +:+ "%+".

Definition hex_value (c : ascii) : option nat :=
  let n := nat_of_ascii c in
  if PyStr.is_digit c then Some (n - 48)
  else if (65 <=? n)%nat && (n <=? 70)%nat then Some (n - 55)
  else None.

(** The character that the head of a quoted string stands for, and the
    rest of the string. *)
Definition head (s : string) : option (ascii * string) :=
  match s with
  | EmptyString => None
  | String "%" (String a (String b t)) =>
      match hex_value a, hex_value b with
      | Some x, Some y => Some (ascii_of_nat (16 * x + y), t)
      | _, _ => None
      end
  | String "%" _ => None
  | String "+" t => Some (" "%char, t)
  | String c t => Some (c, t)
  end.

End Quoted.

(** ** A URL with a question mark and more appended *)

(** What [?p] appended to a well-formed URL is read as: more of the fragment
    if there is one, else more of the query if there is one, else the
    query. *)
Definition with_appended (p : string) (a : Url.t) : Url.t :=
  match Url.fragment a, Url.query a with
  | Some f, _ =>
      Url.mk (Url.scheme a) (Url.host a) (Url.port a) (Url.path a)
             (Url.query a) (Some (f +:+ "?" +:+ p))
  | None, Some q =>
      Url.mk (Url.scheme a) (Url.host a) (Url.port a) (Url.path a)
             (Some (q +:+ "?" +:+ p)) None
  | None, None =>
      Url.mk (Url.scheme a) (Url.host a) (Url.port a) (Url.path a)
             (Some p) None
  end.

(** * Properties *)

(** ** The order of [list.sort] *)

Lemma ascii_cmp_refl a : Ascii.compare a a = Eq.
Proof. unfold Ascii.compare. apply N.compare_refl. Qed.

Lemma cmp_refl s : PyStr.cmp s s = Eq.
Proof.
  unfold PyStr.cmp. induction s as [|a s IH]; simpl; [done|].
  by rewrite ascii_cmp_refl.
Qed.

Lemma cmp_eq s t : PyStr.cmp s t = Eq -> s = t.
Proof. apply String.compare_eq_iff. Qed.

Lemma cmp_gt_lt s t : PyStr.cmp s t = Gt -> PyStr.cmp t s = Lt.
Proof.
  unfold PyStr.cmp. intros H. rewrite String.compare_antisym, H. done.
Qed.

Lemma cmp_lt_iff s t : PyStr.cmp s t = Lt <-> Spec.bytes_lt s t.
Proof.
  unfold PyStr.cmp. split.
  - revert t. induction s as [|a s IH]; intros [|b t]; simpl; try done.
    + intros _. constructor.
    + destruct (Ascii.compare a b) eqn:E; try done.
      * apply Ascii.compare_eq_iff in E as ->. intros H. constructor 3. auto.
      * intros _. constructor 2.
        unfold Ascii.compare in E. unfold nat_of_ascii.
        rewrite N2Nat.inj_compare in E. by apply Nat.compare_lt_iff.
  - induction 1 as [c t|a b s t Hab|a s t _ IH]; simpl; [done| |].
    + assert (Ascii.compare a b = Lt) as ->; [|done].
      unfold Ascii.compare. unfold nat_of_ascii in Hab.
      rewrite N2Nat.inj_compare. by apply Nat.compare_lt_iff.
    + by rewrite ascii_cmp_refl.
Qed.

Lemma bytes_lt_trans s t u :
  Spec.bytes_lt s t -> Spec.bytes_lt t u -> Spec.bytes_lt s u.
Proof.
  intros H. revert u. induction H as [c t|a b s t Hab|a s t _ IH]; intros u Hu.
  - inversion Hu; constructor.
  - inversion Hu; subst; constructor 2; lia.
  - inversion Hu; subst; [by constructor 2|constructor 3; auto].
Qed.

Lemma bytes_lt_irrefl s : ~ Spec.bytes_lt s s.
Proof. intros H. apply cmp_lt_iff in H. by rewrite cmp_refl in H. Qed.

Lemma tuple_le_iff p q : PyStr.tuple_le p q <-> Spec.pair_le p q.
Proof.
  unfold PyStr.tuple_le, PyStr.tuple_leb, Spec.pair_le.
  destruct (PyStr.cmp p.1 q.1) eqn:E1.
  - apply cmp_eq in E1. destruct (PyStr.cmp p.2 q.2) eqn:E2.
    + apply cmp_eq in E2. naive_solver.
    + apply cmp_lt_iff in E2. naive_solver.
    + split; [done|]. intros [H|[_ [H|H]]].
      * rewrite E1 in H. by apply bytes_lt_irrefl in H.
      * rewrite H, cmp_refl in E2. done.
      * apply cmp_lt_iff in H. congruence.
  - apply cmp_lt_iff in E1. naive_solver.
  - split; [done|]. intros [H|[H _]].
    + apply cmp_lt_iff in H. congruence.
    + rewrite H, cmp_refl in E1. done.
Qed.

#[local] Instance tuple_le_total : Total PyStr.tuple_le.
Proof.
  intros p q. unfold PyStr.tuple_le, PyStr.tuple_leb.
  destruct (PyStr.cmp p.1 q.1) eqn:E1.
  - apply cmp_eq in E1. rewrite E1, cmp_refl.
    destruct (PyStr.cmp p.2 q.2) eqn:E2; auto.
    apply cmp_gt_lt in E2. rewrite E2. auto.
  - auto.
  - apply cmp_gt_lt in E1. rewrite E1. auto.
Qed.

#[local] Instance tuple_le_trans : Transitive PyStr.tuple_le.
Proof.
  intros p q r. rewrite !tuple_le_iff. unfold Spec.pair_le.
  intros [H1|[E1 H1]] [H2|[E2 H2]].
  - left. eapply bytes_lt_trans; eauto.
  - left. by rewrite <- E2.
  - left. by rewrite E1.
  - right. split; [congruence|].
    destruct H1 as [->|H1], H2 as [<-|H2]; auto.
    right. eapply bytes_lt_trans; eauto.
Qed.

#[local] Instance tuple_le_antisym : AntiSymm (=) PyStr.tuple_le.
Proof.
  intros [k v] [k' v']. rewrite !tuple_le_iff. unfold Spec.pair_le. simpl.
  intros [H1|[E1 H1]] [H2|[E2 H2]]; subst.
  - destruct (bytes_lt_irrefl k). eapply bytes_lt_trans; eauto.
  - by apply bytes_lt_irrefl in H1.
  - by apply bytes_lt_irrefl in H2.
  - destruct H1 as [->|H1]; [done|]. destruct H2 as [->|H2]; [done|].
    destruct (bytes_lt_irrefl v). eapply bytes_lt_trans; eauto.
Qed.

Lemma sort_sorted l : StronglySorted PyStr.tuple_le (PyStr.sort l).
Proof. apply StronglySorted_merge_sort; apply _. Qed.

Lemma sort_perm l : PyStr.sort l ≡ₚ l.
Proof. apply merge_sort_Permutation. Qed.

(** Two lists with the same elements sort to the same list. *)
Lemma sort_unique l1 l2 : l1 ≡ₚ l2 -> PyStr.sort l1 = PyStr.sort l2.
Proof.
  intros H. apply (StronglySorted_unique PyStr.tuple_le); try apply sort_sorted.
  by rewrite !sort_perm.
Qed.


(** ** Dictionaries and the store *)

(** A dictionary with distinct keys yields its entries as they are listed. *)
Lemma items_wf d : PyDict.wf d -> PyDict.items d = d.
Proof.
  unfold PyDict.wf, PyDict.items, PyDict.keys.
  induction d as [|[k v] d IH]; [done|].
  rewrite fmap_cons, NoDup_cons. simpl. intros [Hk Hd].
  rewrite String.eqb_refl. simpl. f_equal.
  rewrite <- (IH Hd) at 2.
  clear IH Hd. revert Hk. generalize (d.*1). intros ks Hk.
  induction ks as [|k' ks IH]; [done|].
  apply not_elem_of_cons in Hk as [Hne Hk]. simpl.
  assert ((k' =? k)%string = false) as -> by (apply String.eqb_neq; congruence).
  by rewrite (IH Hk).
Qed.

Lemma pop_absent k d :
  PyDict.getitem k d = None -> PyDict.pop k d = d.
Proof.
  unfold PyDict.pop. induction d as [|[k' v] d IH]; [done|].
  cbn [PyDict.getitem].
  destruct (k =? k')%string eqn:E; [done|]. intros H.
  rewrite filter_cons, decide_True.
  - by rewrite (IH H).
  - simpl. by rewrite String.eqb_sym, E.
Qed.

Lemma pop_idemp k d : PyDict.pop k (PyDict.pop k d) = PyDict.pop k d.
Proof. unfold PyDict.pop. by rewrite list_filter_filter_l. Qed.

Lemma pop_wf k d : PyDict.wf d -> PyDict.wf (PyDict.pop k d).
Proof.
  unfold PyDict.wf, PyDict.pop. induction d as [|[k' v] d IH]; [done|].
  rewrite fmap_cons, NoDup_cons. simpl. intros [Hk Hd].
  rewrite filter_cons. case_decide; [|auto].
  rewrite fmap_cons, NoDup_cons. split; [|auto]. simpl.
  intros Hin. apply Hk. apply list_elem_of_fmap in Hin as [x [-> Hx]].
  apply list_elem_of_filter in Hx as [_ Hx]. apply list_elem_of_fmap. eauto.
Qed.

Lemma pop_perm k d1 d2 : d1 ≡ₚ d2 -> PyDict.pop k d1 ≡ₚ PyDict.pop k d2.
Proof. unfold PyDict.pop. by intros ->. Qed.

Lemma deref_alter (f : PyDict.dict -> PyDict.dict) o (h : store) l :
  f [] = [] ->
  deref (alter f o h) l = if decide (o = l) then f (deref h l) else deref h l.
Proof.
  intros Hf. unfold deref. rewrite lookup_alter.
  case_decide; [subst|done]. by destruct (h !! l).
Qed.

Lemma alter_idemp (f : PyDict.dict -> PyDict.dict) o (h : store) :
  (forall d, f (f d) = f d) -> alter f o (alter f o h) = alter f o h.
Proof.
  intros Hf. apply map_eq. intros l. rewrite !lookup_alter.
  case_decide; [|done]. subst. rewrite decide_True by done.
  destruct (h !! l); simpl; by rewrite ?Hf.
Qed.

Lemma alter_absent k o (h : store) :
  PyDict.getitem k (deref h o) = None -> alter (PyDict.pop k) o h = h.
Proof.
  intros H. apply map_eq. intros l. rewrite lookup_alter.
  case_decide; [|done]. subst. unfold deref in H.
  destruct (h !! l) eqn:E; simpl; [|done]. simpl in H. by rewrite pop_absent.
Qed.

(** ** The parameter normalizer *)

(** The normalizer as one equation: the store loses [oauth_signature] in the
    object behind [oauth_params], and the string is made of the sorted pairs
    read from that store. *)
Lemma normalized_unfold oauth get post h :
  normalized_request_parameters oauth get post h =
    let h' := alter (PyDict.pop "oauth_signature") oauth h in
    (PyStr.join "&"
       (map (fun p => p.1 +:+ "=" +:+ p.2)
            (PyStr.sort (collected h' (sources oauth get post)))),
     h').
Proof. reflexivity. Qed.

Lemma normalized_fst oauth get post (h : store) :
  (normalized_request_parameters oauth get post h).1 =
    PyStr.join "&"
      (map (fun p => p.1 +:+ "=" +:+ p.2)
           (PyStr.sort
              (collected (alter (PyDict.pop "oauth_signature") oauth h)
                         (sources oauth get post)))).
Proof. reflexivity. Qed.

Lemma normalized_snd oauth get post (h : store) :
  (normalized_request_parameters oauth get post h).2 =
    alter (PyDict.pop "oauth_signature") oauth h.
Proof. reflexivity. Qed.

(** A second call finds nothing left to remove. *)
Lemma normalized_again oauth get post (h : store) :
  normalized_request_parameters oauth get post
    (normalized_request_parameters oauth get post h).2
  = normalized_request_parameters oauth get post h.
Proof.
  rewrite normalized_snd, !normalized_unfold. cbv zeta.
  by rewrite alter_idemp by apply pop_idemp.
Qed.

Lemma collected_perm h1 h2 refs :
  (forall l, l ∈ refs -> PyDict.wf (deref h1 l) /\ deref h1 l ≡ₚ deref h2 l) ->
  collected h1 refs ≡ₚ collected h2 refs.
Proof.
  unfold collected. induction refs as [|l refs IH]; intros H; [done|]. simpl.
  destruct (H l) as [Hwf Hp]; [by left|].
  assert (PyDict.wf (deref h2 l)) as Hwf2.
  { unfold PyDict.wf in *. by rewrite <- Hp. }
  rewrite (items_wf _ Hwf), (items_wf _ Hwf2), Hp.
  apply Permutation_app_head, IH. intros l' Hl'. apply H. by right.
Qed.



Lemma length_app (a b : string) :
  String.length (a +:+ b) = String.length a + String.length b.
Proof. induction a as [|x a IH]; simpl; [done|]. by rewrite IH. Qed.

Lemma contains_app c a b :
  PyStr.contains c (a +:+ b) = PyStr.contains c a || PyStr.contains c b.
Proof.
  induction a as [|x a IH]; simpl; [done|]. by destruct (Ascii.eqb c x).
Qed.











(** C4, as amended: of all objects, the normalizer changes only the one
    behind oauth_params, and only by removing oauth_signature from it; a
    second call returns the same string and changes nothing more; and the
    string does not depend on the order in which the mappings list their
    entries. *)
Theorem C4_normalizer_effect_and_determinism
    oauth get post (h : store) :
  let res := normalized_request_parameters oauth get post h in
  (forall l, l <> oauth -> res.2 !! l = h !! l)
  /\ deref res.2 oauth = PyDict.pop "oauth_signature" (deref h oauth)
  /\ (PyDict.getitem "oauth_signature" (deref h oauth) = None -> res.2 = h)
  /\ normalized_request_parameters oauth get post res.2 = res
  /\ (forall h2 : store,
        (forall l, l ∈ sources oauth get post ->
                   PyDict.wf (deref h l) /\ deref h l ≡ₚ deref h2 l) ->
        (normalized_request_parameters oauth get post h2).1 = res.1).
Proof.
  intros res. subst res. rewrite normalized_snd.
  split; [|split; [|split; [|split]]].
  - intros l Hl. by rewrite lookup_alter_ne.
  - rewrite deref_alter by done. by rewrite decide_True.
  - apply alter_absent.
  - rewrite <- (normalized_snd oauth get post). apply normalized_again.
  - intros h2 H. rewrite !normalized_fst. do 2 f_equal.
    apply sort_unique, collected_perm.
    intros l Hl. destruct (H l Hl) as [Hwf Hp].
    assert (PyDict.wf (deref h2 l)) as Hwf2.
    { unfold PyDict.wf in *. by rewrite <- Hp. }
    symmetry in Hp. rewrite !deref_alter by done.
    case_decide; [|done]. split; [by apply pop_wf|by apply pop_perm].
Qed.

Lemma C4_witness :
  let h0 : store := {[ 1%positive := [("b", "2"); ("a", "1")] ]} in
  let h1 : store :=
    <[1%positive := [("oauth_signature", "x"); ("b", "2"); ("a", "1")]]>
      {[ 2%positive := [("c", "3"); ("a", "0")] ]} in
  let h2 : store :=
    <[1%positive := [("a", "1"); ("oauth_signature", "x"); ("b", "2")]]>
      {[ 2%positive := [("a", "0"); ("c", "3")] ]} in
  (normalized_request_parameters 1%positive None None h0).2 = h0
  /\ (normalized_request_parameters 1%positive (Some 2%positive) None h1).1
     = (normalized_request_parameters 1%positive (Some 2%positive) None h2).1.
Proof.
  intros h0 h1 h2. split.
  - apply (C4_normalizer_effect_and_determinism 1%positive None None h0).
    reflexivity.
  - apply (C4_normalizer_effect_and_determinism 1%positive (Some 2%positive)
             None h2).
    intros l Hl. vm_compute in Hl.
    repeat (apply elem_of_cons in Hl as [->|Hl]); [| |by apply elem_of_nil in Hl].
    + split; [by apply (bool_decide_unpack _); vm_compute|].
      apply (Permutation_cons_append [("oauth_signature", "x"); ("b", "2")]).
    + split; [by apply (bool_decide_unpack _); vm_compute|].
      apply (Permutation_cons_append [("c", "3")]).
Defined.

(** C4, the claim as written fails: the mapping passed as oauth_params is
    changed by the call. *)
Lemma C4_counterexample :
  let h : store :=
    {[ 1%positive := [("oauth_signature", "x"); ("a", "1")] ]} in
  deref h 1%positive = [("oauth_signature", "x"); ("a", "1")]
  /\ deref (normalized_request_parameters 1%positive None None h).2 1%positive
     = [("a", "1")]
  /\ deref (normalized_request_parameters 1%positive None None h).2 1%positive
     <> deref h 1%positive.
Proof. by vm_compute. Qed.

(** ** The signers *)

Lemma deref_singleton l d : deref {[ l := d ]} l = d.
Proof. unfold deref. by rewrite lookup_singleton_eq. Qed.

Lemma pop_oauth_parameter_set self utils :
  PyDict.pop "oauth_signature" (oauth_parameter_set self utils)
  = oauth_parameter_set self utils.
Proof. reflexivity. Qed.

(** The only error of the base string is the one of [request_url]. *)
Lemma signature_base_string_unfold m u oauth get post (h : store) :
  signature_base_string m u oauth get post h =
    match request_url u with
    | Ok u' =>
        Ok (PyStr.join "&"
              (map Urllib.quote_plus
                 [PyStr.upper m; u';
                  (normalized_request_parameters oauth get post h).1]),
            (normalized_request_parameters oauth get post h).2)
    | Raise e => Raise e
    end.
Proof.
  unfold signature_base_string. destruct (request_url u); [|done].
  simpl. by destruct (normalized_request_parameters oauth get post h).
Qed.

(** [HMACSHA1Auth.__call__] as one equation. *)
Lemma hmac_call_unfold self utils r :
  HMACSHA1Auth.__call__ self utils r =
    match request_url (url r) with
    | Ok u =>
        let p := serialized self utils
                   (signature_of self (base_string self utils r u)) in
        if String.eqb (method r) "GET"
        then Ok (set_url (url r +:+ "?" +:+ p) r)
        else Ok (set_header "Authorization" ("OAuth " +:+ p) r)
    | Raise e => Raise e
    end.
Proof.
  unfold HMACSHA1Auth.__call__, AuthBase.__call__,
    HMACSHA1Auth.generate_signature, AuthBase.signature_base_string.
  rewrite signature_base_string_unfold.
  destruct (request_url (url r)) as [u|e]; [|done].
  cbn [mbind result_bind]. rewrite normalized_snd.
  fold (oauth_parameter_set self utils).
  rewrite alter_singleton_eq, pop_oauth_parameter_set.
  rewrite alter_singleton_eq, deref_singleton.
  reflexivity.
Qed.

Lemma append_neq s t : t <> "" -> s +:+ t <> s.
Proof.
  intros Ht. induction s as [|c s IH]; simpl; [done|].
  intros H. by injection H.
Qed.

Lemma count_char_app c s t :
  count_char c (s +:+ t) = count_char c s + count_char c t.
Proof. induction s as [|d s IH]; simpl; [done|]. rewrite IH. lia. Qed.

Lemma contains_count c s : PyStr.contains c s = true -> 1 <= count_char c s.
Proof.
  induction s as [|d s IH]; simpl; [done|].
  destruct (Ascii.eqb c d); [lia|]. intros H. apply IH in H. lia.
Qed.

Lemma getitem_setitem_eq k v d :
  PyDict.getitem k (PyDict.setitem k v d) = Some v.
Proof.
  induction d as [|[k' v'] d IH]; simpl; [by rewrite String.eqb_refl|].
  destruct (k =? k')%string eqn:E; simpl; [by rewrite String.eqb_refl|].
  by rewrite E.
Qed.

Lemma getitem_setitem_ne k k' v d :
  k' <> k -> PyDict.getitem k' (PyDict.setitem k v d) = PyDict.getitem k' d.
Proof.
  intros Hne. induction d as [|[k0 v0] d IH]; simpl.
  - apply String.eqb_neq in Hne. by rewrite Hne.
  - destruct (k =? k0)%string eqn:E; simpl; [|by rewrite IH].
    apply String.eqb_eq in E. subst k0.
    apply String.eqb_neq in Hne. by rewrite Hne.
Qed.

(** C1: what the code does for RSA_SHA1 and PLAINTEXT.  Both calls succeed
    and hand back the very request they were given: no error is raised, no
    signature is computed, nothing is attached. *)
Theorem C1_rsa_and_plaintext_return_the_request_unsigned self utils r :
  sign RSA_SHA1 self utils r = Ok r
  /\ sign PLAINTEXT self utils r = Ok r
  /\ RSASHA1Auth.__call__ self utils r = Ok r
  /\ PlaintextAuth.__call__ self utils r = Ok r.
Proof. repeat split. Qed.

(** C2: what the code signs.  The signer calls the base string builder with
    the method, the URL and the OAuth parameters only: the query and body
    parameters of the request never reach it, so that the signed request is
    the same whatever they are, and a query in the URL is dropped by the
    canonicalizer.  The builder itself does include the
    additional mappings when it is given them. *)
Theorem C2_signer_leaves_request_parameters_out :
  (forall self r oauth (h : store),
     AuthBase.signature_base_string self r oauth h
     = signature_base_string (method r) (url r) oauth None None h)
  /\ (forall self m u hd q d q' d' oauth (h : store),
        AuthBase.signature_base_string self (mkRequest m u hd q d) oauth h
        = AuthBase.signature_base_string self (mkRequest m u hd q' d') oauth h)
  /\ (forall self utils m u hd q d q' d',
        let r1 := HMACSHA1Auth.__call__ self utils (mkRequest m u hd q d) in
        let r2 := HMACSHA1Auth.__call__ self utils (mkRequest m u hd q' d') in
        url <$> r1 = url <$> r2 /\ headers <$> r1 = headers <$> r2)
  /\ (let self := AuthBase.__init__ "ck" "cs" None None "oob" in
      let h : store :=
        <[1%positive := [("oauth_consumer_key", "ck"); ("oauth_nonce", "n")]]>
          {[ 2%positive := [("status", "hello")] ]} in
      let r := mkRequest "POST" "http://example.com/r?id=123" []
                         [("id", "123")] [("status", "hello")] in
      fst <$> AuthBase.signature_base_string self r 1%positive h
      = Ok "POST&http%3A%2F%2Fexample.com%2Fr&oauth_consumer_key%3Dck%26oauth_nonce%3Dn"
      /\ fst <$> signature_base_string (method r) (url r) 1%positive None
                   (Some 2%positive) h
         = Ok "POST&http%3A%2F%2Fexample.com%2Fr&oauth_consumer_key%3Dck%26oauth_nonce%3Dn%26status%3Dhello").
Proof.
  split; [done|]. split; [done|]. split; [|by vm_compute].
  intros self utils m u hd q d q' d'. cbv zeta. rewrite !hmac_call_unfold.
  cbn [url method]. destruct (request_url u) as [u'|e]; [|done].
  cbv zeta. unfold base_string. cbn [method].
  by destruct (m =? "GET")%string.
Qed.

(** C5: what the code does.  A call of the HMAC-SHA1 signer that succeeds
    changes the URL of a GET request, by appending ? and the serialized OAuth
    parameters, and leaves its headers alone; for every other method it sets
    the Authorization header to OAuth followed by the serialized parameters
    and leaves the URL and all other headers alone; the method, the query
    parameters and the body are never changed.  But a call of the RSA-SHA1 or
    of the PLAINTEXT signer succeeds with the URL and the headers both as
    they were, and what is appended to a URL with a fragment is read as part
    of the fragment, not of the query. *)
Theorem C5_signing_changes_url_or_headers_only :
  (forall self utils r r',
     HMACSHA1Auth.__call__ self utils r = Ok r' ->
     exists u,
       request_url (url r) = Ok u
       /\ let p := serialized self utils
                     (signature_of self (base_string self utils r u)) in
          method r' = method r /\ params r' = params r /\ data r' = data r
          /\ (method r = "GET" ->
              url r' = url r +:+ "?" +:+ p
              /\ url r' <> url r
              /\ headers r' = headers r)
          /\ (method r <> "GET" ->
              url r' = url r
              /\ headers r'
                 = PyDict.setitem "Authorization" ("OAuth " +:+ p) (headers r)
              /\ PyDict.getitem "Authorization" (headers r')
                 = Some ("OAuth " +:+ p)
              /\ forall k, k <> "Authorization" ->
                   PyDict.getitem k (headers r') = PyDict.getitem k (headers r)))
  /\ (forall m self utils r,
        m <> HMAC_SHA1 ->
        exists r',
          sign m self utils r = Ok r'
          /\ url r' = url r /\ headers r' = headers r)
  /\ (let self := AuthBase.__init__ "ck" "cs" None None "oob" in
      let utils := mkUtils 1191242096 "n" in
      let r := mkRequest "GET" "http://example.com/r#top" [] [] [] in
      let p := "oauth_consumer_key=ck&oauth_signature_method=HMAC-SHA1&oauth_timestamp=1191242096&oauth_nonce=n&oauth_version=1.0&oauth_callback=oob&oauth_signature=G%2BU8t6ANQ728O9txxk7QrXmn4n8%3D" in
      exists r',
        sign HMAC_SHA1 self utils r = Ok r'
        /\ url r' = "http://example.com/r#top?" +:+ p
        /\ Urlparse.query <$> Urlparse.urlparse (url r') = Ok ""
        /\ Urlparse.fragment <$> Urlparse.urlparse (url r')
           = Ok ("top?" +:+ p)).
Proof.
  split; [|split].
  - intros self utils r r'. rewrite hmac_call_unfold.
    destruct (request_url (url r)) as [u|e]; [|done].
    intros H. exists u. split; [done|]. cbv zeta in *.
    destruct (method r =? "GET")%string eqn:E.
    + apply String.eqb_eq in E. injection H as <-. simpl.
      repeat split; try done. by apply append_neq.
    + apply String.eqb_neq in E. injection H as <-. simpl.
      repeat split; try done.
      * apply getitem_setitem_eq.
      * intros k Hk. by apply getitem_setitem_ne.
  - intros m self utils r Hm. exists r. by destruct m.
  - cbv zeta. eexists. split; [vm_compute; reflexivity|].
    split; [reflexivity|]. split; vm_compute; reflexivity.
Qed.

Lemma C5_witness :
  let self := AuthBase.__init__ "ck" "cs" None (Some "ts") "oob" in
  let utils := mkUtils 1191242096 "kllo9940pd9333jh" in
  let r := mkRequest "POST" "https://Example.com:443/r" [("Accept", "*/*")]
                     [] [("status", "hello")] in
  let r' :=
    set_header "Authorization"
      "OAuth oauth_consumer_key=ck&oauth_signature_method=HMAC-SHA1&oauth_timestamp=1191242096&oauth_nonce=kllo9940pd9333jh&oauth_version=1.0&oauth_callback=oob&oauth_signature=erU9ttJK0dZSUMIfMhw0edE1CRY%3D"
      r in
  let g := mkRequest "GET" "https://Example.com:443/r" [("Accept", "*/*")]
                     [] [] in
  let g' :=
    set_url
      "https://Example.com:443/r?oauth_consumer_key=ck&oauth_signature_method=HMAC-SHA1&oauth_timestamp=1191242096&oauth_nonce=kllo9940pd9333jh&oauth_version=1.0&oauth_callback=oob&oauth_signature=Ibpnd6DjavEm0H0ggif7F6TApmU%3D"
      g in
  (HMACSHA1Auth.__call__ self utils r = Ok r'
   /\ method r' = method r /\ params r' = params r /\ data r' = data r
   /\ url r' = url r
   /\ PyDict.getitem "Accept" (headers r') = Some "*/*")
  /\ (HMACSHA1Auth.__call__ self utils g = Ok g'
      /\ url g' <> url g /\ headers g' = headers g)
  /\ (exists p', sign PLAINTEXT self utils g = Ok p'
                 /\ url p' = url g /\ headers p' = headers g).
Proof.
  intros self utils r r' g g'. split; [|split].
  - assert (HMACSHA1Auth.__call__ self utils r = Ok r') as H
      by (vm_compute; reflexivity).
    split; [exact H|].
    destruct (proj1 C5_signing_changes_url_or_headers_only self utils r r' H)
      as (u & _ & Hm & Hp & Hd & _ & Hpost).
    destruct Hpost as (Hu & _ & _ & Hk); [discriminate|].
    refine (conj Hm (conj Hp (conj Hd (conj Hu _)))).
    exact (Hk "Accept" ltac:(discriminate)).
  - assert (HMACSHA1Auth.__call__ self utils g = Ok g') as H
      by (vm_compute; reflexivity).
    split; [exact H|].
    destruct (proj1 C5_signing_changes_url_or_headers_only self utils g g' H)
      as (u & _ & _ & _ & _ & Hget & _).
    destruct Hget as (_ & Hne & Hh); [reflexivity|].
    exact (conj Hne Hh).
  - apply (proj1 (proj2 C5_signing_changes_url_or_headers_only)
             PLAINTEXT self utils g).
    discriminate.
Defined.

(** C10, as amended: for a GET request whose URL the canonicalizer accepts,
    the call returns the request with its URL set to the original URL, a
    question mark and the url-encoded OAuth parameters, whatever the original
    URL looks like, and with everything else as it was; a URL that had a
    query string comes out with a second question mark and begins with the
    original URL, its query unmerged.  Where the canonicalizer raises, the
    call raises the same error and returns no request. *)
Theorem C10_get_appends_query_unconditionally self utils r :
  method r = "GET" ->
  match request_url (url r) with
  | Ok u =>
      let p := serialized self utils
                 (signature_of self (base_string self utils r u)) in
      exists r',
        HMACSHA1Auth.__call__ self utils r = Ok r'
        /\ r' = set_url (url r +:+ "?" +:+ p) r
        /\ url r' = url r +:+ "?" +:+ p
        /\ url r' <> url r
        /\ method r' = method r /\ headers r' = headers r
        /\ params r' = params r /\ data r' = data r
        /\ count_char "?" (url r')
           = count_char "?" (url r) + 1 + count_char "?" p
        /\ (PyStr.contains "?" (url r) = true ->
            2 <= count_char "?" (url r'))
  | Raise e =>
      HMACSHA1Auth.__call__ self utils r = Raise e
      /\ forall r', HMACSHA1Auth.__call__ self utils r <> Ok r'
  end.
Proof.
  intros Hm. rewrite hmac_call_unfold, Hm.
  destruct (request_url (url r)) as [u|e]; [|done].
  cbv zeta. eexists. split; [reflexivity|]. split; [reflexivity|].
  cbn [url method headers params data set_url].
  split; [done|]. split; [by apply append_neq|].
  do 4 (split; [done|]).
  rewrite !count_char_app. simpl.
  split; [lia|]. intros H%contains_count. lia.
Qed.

Lemma C10_witness :
  let self := AuthBase.__init__ "ck" "cs" None None "oob" in
  let utils := mkUtils 1191242096 "n" in
  let r := mkRequest "GET" "http://example.com/r?id=123" [] [] [] in
  exists r',
    HMACSHA1Auth.__call__ self utils r = Ok r'
    /\ url r'
       = "http://example.com/r?id=123?oauth_consumer_key=ck&oauth_signature_method=HMAC-SHA1&oauth_timestamp=1191242096&oauth_nonce=n&oauth_version=1.0&oauth_callback=oob&oauth_signature=G%2BU8t6ANQ728O9txxk7QrXmn4n8%3D"
    /\ 2 <= count_char "?" (url r').
Proof.
  intros self utils r.
  generalize (C10_get_appends_query_unconditionally self utils r eq_refl).
  assert (request_url (url r) = Ok "http://example.com/r") as ->
    by (vm_compute; reflexivity).
  intros (r' & H & _ & Hu & _ & _ & _ & _ & _ & _ & Hq).
  exists r'. split; [exact H|]. split.
  - etransitivity; [exact Hu|]. vm_compute. reflexivity.
  - apply Hq. reflexivity.
Defined.

(** C10, the claim as written fails: a GET request whose URL has a query
    string but no host is not given a second question mark; the call raises
    a TypeError. *)
Lemma C10_counterexample :
  let self := AuthBase.__init__ "ck" "cs" None None "oob" in
  let utils := mkUtils 1191242096 "n" in
  let r := mkRequest "GET" "/r?id=123" [] [] [] in
  method r = "GET"
  /\ PyStr.contains "?" (url r) = true
  /\ HMACSHA1Auth.__call__ self utils r = Raise TypeError
  /\ ~ exists r', HMACSHA1Auth.__call__ self utils r = Ok r'.
Proof.
  intros self utils r.
  assert (HMACSHA1Auth.__call__ self utils r = Raise TypeError) as H
    by (vm_compute; reflexivity).
  split; [reflexivity|]. split; [reflexivity|]. split; [exact H|].
  intros [r' Hr']. congruence.
Qed.

(** ** The HMAC-SHA1 key *)

Lemma quoter_safe c :
  PyStr.mem c (Urllib.always_safe +:+ "") = true ->
  Urllib.quoter "" c = String c "".
Proof.
  destruct c as [[] [] [] [] [] [] [] []]; vm_compute; congruence.
Qed.

Lemma quoter_percent_encode c :
  c <> " "%char -> c <> "~"%char ->
  Urllib.quoter "" c = Spec.percent_encode_char c.
Proof.
  destruct c as [[] [] [] [] [] [] [] []]; vm_compute; congruence.
Qed.

Lemma quote_chars s :
  Urllib.quote s "" = PyStr.cat (map (Urllib.quoter "") (list_ascii_of_string s)).
Proof.
  unfold Urllib.quote. destruct s as [|c s]; [done|].
  destruct (PyStr.all_in _ _) eqn:E; [|done].
  revert E. generalize (String c s). clear. intros s.
  induction s as [|c s IH]; [done|]. simpl.
  intros [Hc Hs]%andb_true_iff. by rewrite quoter_safe, <- IH.
Qed.

(** On a secret without spaces and tildes the two encodings agree. *)
Lemma quote_plus_percent_encode s :
  PyStr.contains " " s = false -> PyStr.contains "~" s = false ->
  Urllib.quote_plus s = Spec.percent_encode s.
Proof.
  intros Hsp Hti. unfold Urllib.quote_plus. rewrite Hsp, quote_chars.
  unfold Spec.percent_encode. f_equal.
  induction s as [|c s IH]; [done|].
  cbn [PyStr.contains] in Hsp, Hti. cbn [list_ascii_of_string map].
  destruct (Ascii.eqb_spec " " c); [done|].
  destruct (Ascii.eqb_spec "~" c); [done|].
  rewrite quoter_percent_encode by congruence. by rewrite IH.
Qed.

(** C6: what the code computes.  The signature is the base64 form of the
    HMAC-SHA1 digest of the base string, a second call on the same objects
    returns the same signature, and the key always has its two parts around
    an ampersand; but the parts are encoded with
    urllib.quote_plus, which agrees with the percent-encoding only on secrets
    without spaces and tildes: the secret "a b" gives the key "a+b&" where
    the percent-encoding gives "a%20b&". *)
Theorem C6_hmac_signature_and_key :
  (forall self r oauth (h : store),
     HMACSHA1Auth.generate_signature self r oauth h
     = (fun sh : string * store =>
          (Base64.b64encode
             (HMACSHA1Auth.hmac_sha1
                (Urllib.quote_plus (AuthBase.consumer_secret self) +:+ "&"
                   +:+ Urllib.quote_plus (AuthBase.token_secret self))
                sh.1),
           sh.2))
         <$> AuthBase.signature_base_string self r oauth h)
  /\ (forall self r oauth (h : store) s h',
        HMACSHA1Auth.generate_signature self r oauth h = Ok (s, h') ->
        HMACSHA1Auth.generate_signature self r oauth h' = Ok (s, h'))
  /\ (forall ck cs cb,
        HMACSHA1Auth.signing_key (AuthBase.__init__ ck cs None None cb)
        = Urllib.quote_plus cs +:+ "&")
  /\ (forall self,
        PyStr.contains " " (AuthBase.consumer_secret self) = false ->
        PyStr.contains "~" (AuthBase.consumer_secret self) = false ->
        PyStr.contains " " (AuthBase.token_secret self) = false ->
        PyStr.contains "~" (AuthBase.token_secret self) = false ->
        HMACSHA1Auth.signing_key self
        = Spec.percent_encode (AuthBase.consumer_secret self) +:+ "&"
            +:+ Spec.percent_encode (AuthBase.token_secret self))
  /\ HMACSHA1Auth.signing_key (AuthBase.__init__ "ck" "a b" None None "oob")
     = "a+b&"
  /\ Spec.percent_encode "a b" +:+ "&" +:+ Spec.percent_encode "" = "a%20b&"
  /\ HMACSHA1Auth.signing_key (AuthBase.__init__ "ck" "a~b" None None "oob")
     = "a%7Eb&"
  /\ Base64.b64encode
       (HMACSHA1Auth.hmac_sha1 "kd94hf93k423kf44&pfkkdhi9sl3r4s00"
          "GET&http%3A%2F%2Fphotos.example.net%2Fphotos&file%3Dvacation.jpg%26oauth_consumer_key%3Ddpf43f3p2l4k3l03%26oauth_nonce%3Dkllo9940pd9333jh%26oauth_signature_method%3DHMAC-SHA1%26oauth_timestamp%3D1191242096%26oauth_token%3Dnnch734d00sl2jdk%26oauth_version%3D1.0%26size%3Doriginal")
     = "tR3+Ty81lMeYAr/Fid0kMTYa/WM=".
Proof.
  split; [|split; [|split; [|split; [|repeat split; vm_compute; reflexivity]]]].
  - intros self r oauth h. unfold HMACSHA1Auth.generate_signature.
    destruct (AuthBase.signature_base_string self r oauth h) as [[s h']|e];
      reflexivity.
  - intros self r oauth h s h'.
    unfold HMACSHA1Auth.generate_signature, AuthBase.signature_base_string.
    rewrite !signature_base_string_unfold.
    destruct (request_url (url r)) as [u|e]; [|done].
    cbn [mbind result_bind].
    pose proof (normalized_again oauth None None h) as Hagain.
    destruct (normalized_request_parameters oauth None None h) as [p h1].
    cbn [fst snd] in *. intros [= <- <-]. by rewrite Hagain.
  - intros ck cs cb. reflexivity.
  - intros self H1 H2 H3 H4. unfold HMACSHA1Auth.signing_key.
    by rewrite !quote_plus_percent_encode.
Qed.

Lemma C6_witness :
  let self := AuthBase.__init__ "ck" "djr9rjt0jd78jf88" None
                                (Some "jjd999tj88uiths3") "oob" in
  let r := mkRequest "GET" "http://example.com/r" [] [] [] in
  let h : store :=
    {[ 1%positive := [("oauth_consumer_key", "ck"); ("oauth_signature", "old")] ]} in
  let h' : store := {[ 1%positive := [("oauth_consumer_key", "ck")] ]} in
  let s := "xcnBnCbVF8knAuIkzqTddK4G/UE=" in
  HMACSHA1Auth.signing_key self
  = Spec.percent_encode (AuthBase.consumer_secret self) +:+ "&"
      +:+ Spec.percent_encode (AuthBase.token_secret self)
  /\ HMACSHA1Auth.generate_signature self r 1%positive h = Ok (s, h')
  /\ HMACSHA1Auth.generate_signature self r 1%positive h' = Ok (s, h').
Proof.
  intros self r h h' s. split.
  - apply (proj1 (proj2 (proj2 (proj2 C6_hmac_signature_and_key))) self);
      vm_compute; reflexivity.
  - assert (HMACSHA1Auth.generate_signature self r 1%positive h = Ok (s, h'))
      as H by (vm_compute; reflexivity).
    split; [exact H|].
    exact (proj1 (proj2 C6_hmac_signature_and_key) self r 1%positive h s h' H).
Defined.

(** ** The request URL *)

(** A missing host name means that nothing follows the user information. *)
Lemma hostname_None p :
  Urlparse.hostname p = None ->
  Urlparse.last_field (PyStr.split "@" (Urlparse.netloc p)) = "".
Proof.
  unfold Urlparse.hostname.
  destruct (_ && _); [done|]. destruct (PyStr.contains ":" _); [done|].
  destruct (String.eqb_spec
              (Urlparse.last_field (PyStr.split "@" (Urlparse.netloc p))) "");
    done.
Qed.

Lemma hostname_None_port p :
  Urlparse.hostname p = None -> Urlparse.port p = Ok None.
Proof.
  intros H%hostname_None. unfold Urlparse.port. by rewrite H.
Qed.

Lemma of_str_raises s e : PyInt.of_str s = Raise e -> e = ValueError.
Proof.
  unfold PyInt.of_str.
  destruct (PyInt.rstrip (PyInt.lstrip s)) as [|c t]; [congruence|].
  destruct (let '(sign, ds) := _ in _) eqn:E; [done|].
  intros [= <-]. revert E.
  repeat case_match; congruence.
Qed.

Lemma port_raises p e : Urlparse.port p = Raise e -> e = ValueError.
Proof.
  unfold Urlparse.port. repeat case_match; try done.
  destruct (PyInt.of_str _) eqn:E; cbn [mbind result_bind].
  - repeat case_match; done.
  - intros [= <-]. by apply of_str_raises in E.
Qed.

(** C9, as amended: there is no MalformedURL error.  For every input in
    which the parser finds no network location after the user information,
    and for no other input, the canonicalizer fails with the TypeError of
    joining None, which reaches the caller in place of a result. *)
Theorem C9_missing_host_raises_TypeError url p :
  Urlparse.urlparse url = Ok p ->
  (Urlparse.hostname p = None <-> request_url url = Raise TypeError).
Proof.
  intros Hp. unfold request_url. rewrite Hp. cbn [mbind result_bind]. split.
  - intros H. rewrite (hostname_None_port _ H), H. cbn [mbind result_bind].
    by rewrite !andb_false_r.
  - destruct (Urlparse.hostname p) as [hn|]; [|done].
    destruct (Urlparse.port p) as [po|e] eqn:Hport; cbn [mbind result_bind].
    2:{ intros [= ->]. by apply port_raises in Hport. }
    repeat match goal with
           | |- context [if ?b then None else ?x] => destruct b
           end;
      try destruct po; done.
Qed.

Lemma C9_witness :
  request_url "example.com/path" = Raise TypeError.
Proof.
  apply (C9_missing_host_raises_TypeError "example.com/path"
           (Urlparse.mkParseResult "" "" "example.com/path" "" "" ""));
    vm_compute; reflexivity.
Defined.

(** C9, the claim as written fails: an input without a scheme and an input
    with an empty host are not rejected. *)
Lemma C9_counterexample :
  Urlparse.scheme <$> Urlparse.urlparse "//example.com/x" = Ok ""
  /\ request_url "//example.com/x" = Ok "//example.com/x"
  /\ Urlparse.hostname <$> Urlparse.urlparse "http://:80/x" = Ok (Some "")
  /\ request_url "http://:80/x" = Ok "http:///x"
  /\ forall e, request_url "//example.com/x" <> Raise e
                /\ request_url "http://:80/x" <> Raise e.
Proof. by vm_compute. Qed.

#[local] Arguments String.append !_ _ / : simpl nomatch.

(** ** Strings *)

Lemma append_assoc (a b c : string) : (a +:+ b) +:+ c = a +:+ (b +:+ c).
Proof. induction a as [|x a IH]; simpl; [done|]. by f_equal. Qed.

Lemma append_nil_r (a : string) : a +:+ "" = a.
Proof. induction a as [|x a IH]; simpl; [done|]. by rewrite IH. Qed.

Lemma take_app a b : PyStr.take (String.length a) (a +:+ b) = a.
Proof. induction a as [|x a IH]; simpl; [by destruct b|]. by rewrite IH. Qed.

Lemma drop_app a b : PyStr.drop (String.length a) (a +:+ b) = b.
Proof. induction a as [|x a IH]; simpl; done. Qed.

Lemma find_app c a b :
  PyStr.contains c a = false ->
  PyStr.find c (a +:+ b) = (fun i => String.length a + i) <$> PyStr.find c b.
Proof.
  induction a as [|x a IH]; simpl.
  - intros _. by destruct (PyStr.find c b).
  - destruct (Ascii.eqb c x); [done|]. intros H. rewrite (IH H).
    by destruct (PyStr.find c b).
Qed.

Lemma find_head c b : PyStr.find c (String c b) = Some 0.
Proof. simpl. by rewrite Ascii.eqb_refl. Qed.

Lemma split_None c s : PyStr.contains c s = false -> PyStr.split c s = [s].
Proof.
  induction s as [|x s IH]; simpl; [done|].
  destruct (Ascii.eqb c x); [done|]. intros H. by rewrite (IH H).
Qed.

Lemma split_app c a b :
  PyStr.contains c a = false ->
  PyStr.split c (a +:+ String c b) = a :: PyStr.split c b.
Proof.
  induction a as [|x a IH]; simpl.
  - intros _. by rewrite Ascii.eqb_refl.
  - destruct (Ascii.eqb c x); [done|]. intros H. by rewrite (IH H).
Qed.

Lemma none_of_contains chars s c :
  Url.none_of chars s = true -> PyStr.contains c chars = true ->
  PyStr.contains c s = false.
Proof.
  unfold Url.none_of. induction chars as [|x chars IH]; simpl; [done|].
  intros [Hx H]%andb_true_iff.
  destruct (Ascii.eqb_spec c x) as [->|_]; [by destruct (PyStr.contains x s)|].
  by apply IH.
Qed.

(** A string made of the characters of [chars] has no other character. *)
Lemma all_in_contains chars s c :
  PyStr.all_in chars s = true -> PyStr.contains c chars = false ->
  PyStr.contains c s = false.
Proof.
  induction s as [|x s IH]; simpl; [done|].
  intros [Hx H]%andb_true_iff Hc.
  destruct (Ascii.eqb_spec c x) as [->|_]; [|by apply IH].
  unfold PyStr.mem in Hx. congruence.
Qed.

Lemma drop_app_S a c b : PyStr.drop (S (String.length a)) (a +:+ String c b) = b.
Proof. induction a as [|x a IH]; simpl; done. Qed.

(** Cutting an optional part off at the character that introduces it. *)
Lemma cut_part c a o :
  PyStr.contains c a = false ->
  (if PyStr.contains c (a +:+ Url.part c o)
   then Urlparse.cut c (a +:+ Url.part c o)
   else (a +:+ Url.part c o, ""))
  = (a, default "" o).
Proof.
  intros Ha. rewrite contains_app, Ha. destruct o as [x|].
  - cbn [Url.part PyStr.contains orb default from_option]. rewrite Ascii.eqb_refl. unfold Urlparse.cut.
    rewrite (find_app _ _ _ Ha), find_head.
    cbn [fmap option_fmap option_map].
    by rewrite Nat.add_0_r, take_app, drop_app_S.
  - simpl. by rewrite append_nil_r.
Qed.

(** ** urlsplit on a URL of the common shape *)

Lemma splitnetloc_spec nl t :
  Url.none_of "/?#" nl = true ->
  match t with
  | EmptyString => True
  | String c _ => PyStr.contains c "/?#" = true
  end ->
  Urlparse._splitnetloc ("//" +:+ nl +:+ t) 2 = (nl, t).
Proof.
  intros Hnl Ht. unfold Urlparse._splitnetloc.
  assert (forall c, PyStr.contains c "/?#" = true ->
            PyStr.find_from c 2 ("//" +:+ nl +:+ t)
            = (fun i => 2 + (String.length nl + i)) <$> PyStr.find c t) as HF.
  { intros c Hc. unfold PyStr.find_from.
    change (PyStr.drop 2 ("//" +:+ nl +:+ t)) with (nl +:+ t).
    rewrite find_app by (eapply none_of_contains; eauto).
    by destruct (PyStr.find c t). }
  cbn [fold_left]. rewrite !HF by done. clear HF.
  assert (String.length ("//" +:+ nl +:+ t)
          = 2 + (String.length nl + String.length t)) as ->.
  { simpl. by rewrite length_app. }
  set (n := String.length nl).
  assert (forall d, d = 2 + n ->
            (PyStr.take (d - 2) (PyStr.drop 2 ("//" +:+ nl +:+ t)),
             PyStr.drop d ("//" +:+ nl +:+ t)) = (nl, t)) as Hfin.
  { intros d ->. replace (2 + n - 2) with n by lia.
    change (PyStr.drop 2 ("//" +:+ nl +:+ t)) with (nl +:+ t).
    change (PyStr.drop (2 + n) ("//" +:+ nl +:+ t))
      with (PyStr.drop n (nl +:+ t)).
    subst n. by rewrite take_app, drop_app. }
  apply Hfin. clear Hfin.
  destruct t as [|c t'].
  - simpl. lia.
  - cbn [PyStr.find]. cbn [PyStr.contains] in Ht.
    assert (c = "/" \/ c = "?" \/ c = "#")%char as Hc.
    { destruct (Ascii.eqb_spec c "/"); [by left|].
      destruct (Ascii.eqb_spec c "?"); [by right; left|].
      destruct (Ascii.eqb_spec c "#"); [by right; right|done]. }
    destruct Hc as [-> | [-> | ->] ];
      repeat match goal with
             | |- context [Ascii.eqb ?a ?b] =>
                 let v := eval vm_compute in (Ascii.eqb a b) in
                 change (Ascii.eqb a b) with v
             end;
      cbv iota;
      destruct (PyStr.find "/" t'), (PyStr.find "?" t'), (PyStr.find "#" t');
      cbn [fmap option_fmap option_map String.length]; lia.
Qed.

Lemma none_of_intro chars s :
  (forall c, PyStr.contains c chars = true -> PyStr.contains c s = false) ->
  Url.none_of chars s = true.
Proof.
  unfold Url.none_of. induction chars as [|x chars IH]; intros H; [done|].
  cbn [list_ascii_of_string forallb]. rewrite (H x), IH; [done| |].
  - intros c Hc. apply H. cbn [PyStr.contains]. rewrite Hc.
    by destruct (Ascii.eqb c x).
  - cbn [PyStr.contains]. by rewrite Ascii.eqb_refl.
Qed.

Lemma wf_unpack a : Url.wf a = true -> wf_parts a.
Proof.
  unfold Url.wf. rewrite !andb_true_iff.
  intros [[[[[[[H1 H2] H3] H4] H5] H6] H7] H8]. split; try done.
  - destruct (Url.port a); [by apply andb_true_iff|done].
  - destruct (Url.path a) as [|c p]; [done|]. by apply Ascii.eqb_eq.
  - by destruct (Url.query a).
Qed.

(** The network location of a well-formed URL has none of the characters
    that would end it or that mark user information or an IPv6 literal. *)
Lemma netloc_chars a c :
  wf_parts a -> PyStr.contains c "/?#@[]" = true ->
  PyStr.contains c (Url.host a +:+ Url.part ":" (Url.port a)) = false.
Proof.
  intros [] Hc. rewrite contains_app.
  rewrite (none_of_contains "/?#@[]:" _ c) by
    (try done; revert Hc; cbn [PyStr.contains];
     repeat (destruct (Ascii.eqb c _); [done|]); done).
  destruct (Url.port a) as [ds|]; [|done]. destruct wf_port0 as [_ Hds].
  cbn [Url.part PyStr.contains orb].
  rewrite (all_in_contains _ _ c Hds).
  - revert Hc. cbn [PyStr.contains].
    destruct (Ascii.eqb_spec c "/") as [->|]; [done|].
    destruct (Ascii.eqb_spec c "?") as [->|]; [done|].
    destruct (Ascii.eqb_spec c "#") as [->|]; [done|].
    destruct (Ascii.eqb_spec c "@") as [->|]; [done|].
    destruct (Ascii.eqb_spec c "[") as [->|]; [done|].
    destruct (Ascii.eqb_spec c "]") as [->|]; [done|]. done.
  - revert Hc. cbn [PyStr.contains].
    destruct (Ascii.eqb_spec c "/") as [->|]; [done|].
    destruct (Ascii.eqb_spec c "?") as [->|]; [done|].
    destruct (Ascii.eqb_spec c "#") as [->|]; [done|].
    destruct (Ascii.eqb_spec c "@") as [->|]; [done|].
    destruct (Ascii.eqb_spec c "[") as [->|]; [done|].
    destruct (Ascii.eqb_spec c "]") as [->|]; [done|]. done.
Qed.

Lemma split_after_scheme_render sch a :
  wf_parts a ->
  Urlparse.split_after_scheme sch
    ("//" +:+ Url.host a +:+ Url.part ":" (Url.port a) +:+ Url.path a
       +:+ Url.part "?" (Url.query a) +:+ Url.part "#" (Url.fragment a))
  = Ok (Urlparse.mkParseResult sch
          (Url.host a +:+ Url.part ":" (Url.port a)) (Url.path a) ""
          (default "" (Url.query a)) (default "" (Url.fragment a))).
Proof.
  intros Hwf. unfold Urlparse.split_after_scheme.
  change (PyStr.take 2 ("//" +:+ ?x)) with "//". rewrite String.eqb_refl.
  rewrite <- (append_assoc (Url.host a)).
  rewrite splitnetloc_spec.
  - rewrite !(netloc_chars a) by done. cbn [andb orb mbind result_bind].
    rewrite <- (append_assoc (Url.path a)).
    destruct Hwf.
    rewrite cut_part.
    + rewrite cut_part; [done|]. by apply (none_of_contains "?#").
    + rewrite contains_app, (none_of_contains "?#" _ "#") by done.
      destruct (Url.query a) as [q|]; [|done]. cbn [Url.part PyStr.contains].
      by rewrite (none_of_contains "#" q "#").
  - apply none_of_intro. intros c Hc. apply netloc_chars; [done|].
    revert Hc. cbn [PyStr.contains].
    repeat (destruct (Ascii.eqb c _); [done|]). done.
  - destruct Hwf. destruct (Url.path a) as [|c p]; [|by subst].
    destruct (Url.query a); [done|]. by destruct (Url.fragment a).
Qed.

Lemma render_unfold a :
  Url.render a
  = Url.scheme a +:+ String ":"
      ("//" +:+ Url.host a +:+ Url.part ":" (Url.port a) +:+ Url.path a
         +:+ Url.part "?" (Url.query a) +:+ Url.part "#" (Url.fragment a)).
Proof. reflexivity. Qed.

Lemma urlsplit_render a :
  wf_parts a ->
  Urlparse.urlsplit (Url.render a)
  = Ok (Urlparse.mkParseResult (PyStr.lower (Url.scheme a))
          (Url.host a +:+ Url.part ":" (Url.port a)) (Url.path a) ""
          (default "" (Url.query a)) (default "" (Url.fragment a))).
Proof.
  intros Hwf. rewrite render_unfold. unfold Urlparse.urlsplit.
  rewrite find_app, find_head
    by (eapply all_in_contains; [apply Hwf|reflexivity]).
  cbn [fmap option_fmap option_map]. rewrite Nat.add_0_r.
  destruct (Url.scheme a) as [|c s] eqn:Es;
    [destruct Hwf as [H _ _ _ _ _ _ _]; by rewrite Es in H|].
  cbn [String.length]. rewrite <- Es.
  replace (S (String.length s)) with (String.length (Url.scheme a))
    by (by rewrite Es).
  rewrite take_app, Nat.add_1_r, drop_app_S.
  destruct (String.eqb _ "http"); [by apply split_after_scheme_render|].
  rewrite (wf_scheme_chars a Hwf).
  change (String.eqb ("//" +:+ ?x) "") with false.
  change (PyStr.all_in "0123456789" ("//" +:+ ?x)) with false.
  cbn [orb negb]. by apply split_after_scheme_render.
Qed.

Lemma urlparse_render a :
  wf_parts a ->
  Urlparse.urlparse (Url.render a)
  = Ok (Urlparse.mkParseResult (PyStr.lower (Url.scheme a))
          (Url.host a +:+ Url.part ":" (Url.port a)) (Url.kept_path a)
          (if Urlparse.str_in (PyStr.lower (Url.scheme a)) Urlparse.uses_params
              && PyStr.contains ";" (Url.path a)
           then (Urlparse._splitparams (Url.path a)).2 else "")
          (default "" (Url.query a)) (default "" (Url.fragment a))).
Proof.
  intros Hwf. unfold Urlparse.urlparse. rewrite (urlsplit_render a Hwf).
  cbn [mbind result_bind Urlparse.scheme Urlparse.path Urlparse.netloc
       Urlparse.query Urlparse.fragment].
  unfold Url.kept_path.
  destruct (_ && _); [|done]. by destruct (Urlparse._splitparams _).
Qed.

(** ** Decimal ports *)

Lemma digit_props c :
  PyStr.mem c "0123456789" = true ->
  PyStr.is_digit c = true /\ PyInt.is_space c = false
  /\ c <> "-"%char /\ c <> "+"%char
  /\ (0 <= Z.of_nat (nat_of_ascii c) - 48)%Z.
Proof.
  destruct c as [[] [] [] [] [] [] [] []]; vm_compute; try congruence;
    intros _; repeat split; congruence.
Qed.

Lemma rstrip_digits s :
  PyStr.all_in "0123456789" s = true -> PyInt.rstrip s = s.
Proof.
  induction s as [|c s IH]; [done|]. cbn [PyStr.all_in PyInt.rstrip].
  intros [Hc Hs]%andb_true_iff. rewrite (IH Hs).
  destruct s; [|done]. by destruct (digit_props c Hc) as (_ & -> & _).
Qed.

Lemma of_digits_digits s acc :
  PyStr.all_in "0123456789" s = true -> (0 <= acc)%Z ->
  exists n, PyInt.of_digits acc s = Some n /\ (0 <= n)%Z.
Proof.
  revert acc. induction s as [|c s IH]; intros acc; [by eauto|].
  cbn [PyStr.all_in PyInt.of_digits]. intros [Hc Hs]%andb_true_iff Hacc.
  destruct (digit_props c Hc) as (-> & _ & _ & _ & Hv).
  apply IH; [done|lia].
Qed.

Lemma of_str_digits ds :
  Url.nonempty ds = true -> PyStr.all_in "0123456789" ds = true ->
  PyInt.of_str ds = Ok (Url.port_number ds) /\ (0 <= Url.port_number ds)%Z.
Proof.
  intros Hne Hds. unfold PyInt.of_str, Url.port_number.
  destruct (of_digits_digits ds 0 Hds) as (n & Hn & Hpos); [done|].
  assert (PyInt.lstrip ds = ds) as ->.
  { destruct ds as [|c s]; [done|]. cbn [PyStr.all_in] in Hds.
    apply andb_true_iff in Hds as [Hc _]. cbn [PyInt.lstrip].
    by destruct (digit_props c Hc) as (_ & -> & _). }
  rewrite (rstrip_digits _ Hds), Hn. cbn [default from_option id].
  destruct ds as [|c s]; [done|]. cbn [PyStr.all_in] in Hds.
  apply andb_true_iff in Hds as [Hc _].
  destruct (digit_props c Hc) as (_ & _ & Hm & Hp & _).
  split; [|done].
  transitivity
    (let '(sign, ds) := (1%Z, String c s) in
     match ds with
     | EmptyString => Raise ValueError
     | _ => match PyInt.of_digits 0 ds with
            | Some n => Ok (sign * n)%Z
            | None => Raise ValueError
            end
     end).
  - f_equal. destruct c as [[] [] [] [] [] [] [] []]; try done; congruence.
  - cbv zeta iota beta. rewrite Hn. f_equal. lia.
Qed.

(** ** The host name and the port of a well-formed URL *)

Lemma lower_nonempty s : Url.nonempty s = true -> PyStr.lower s <> "".
Proof. by destruct s. Qed.

Lemma hostname_render a sch pa pr q f :
  wf_parts a ->
  Urlparse.hostname
    (Urlparse.mkParseResult sch (Url.host a +:+ Url.part ":" (Url.port a))
       pa pr q f)
  = Some (PyStr.lower (Url.host a)).
Proof.
  intros Hwf. unfold Urlparse.hostname. cbn [Urlparse.netloc].
  rewrite split_None by (by apply netloc_chars).
  cbn [Urlparse.last_field List.last].
  rewrite (netloc_chars a "[") by done. cbn [andb].
  assert (PyStr.contains ":" (Url.host a) = false) as Hh
    by (by apply (none_of_contains "/?#@[]:"); [apply Hwf|]).
  destruct (Url.port a) as [ds|] eqn:Ep; cbn [Url.part].
  - rewrite contains_app. cbn [PyStr.contains]. rewrite Ascii.eqb_refl, orb_true_r.
    by rewrite split_app.
  - rewrite append_nil_r, Hh.
    destruct (String.eqb_spec (Url.host a) "") as [E|_]; [|done].
    destruct Hwf as [_ _ H _ _ _ _ _]. by rewrite E in H.
Qed.

Lemma port_render a sch pa pr q f :
  wf_parts a ->
  Urlparse.port
    (Urlparse.mkParseResult sch (Url.host a +:+ Url.part ":" (Url.port a))
       pa pr q f)
  = Ok match Url.port a with
       | Some ds =>
           if (Url.port_number ds <=? 65535)%Z
           then Some (Url.port_number ds) else None
       | None => None
       end.
Proof.
  intros Hwf. unfold Urlparse.port. cbn [Urlparse.netloc].
  rewrite (split_None "@") by (by apply netloc_chars).
  cbn [Urlparse.last_field List.last].
  rewrite (split_None "]") by (by apply netloc_chars).
  cbn [Urlparse.last_field List.last].
  assert (PyStr.contains ":" (Url.host a) = false) as Hh
    by (by apply (none_of_contains "/?#@[]:"); [apply Hwf|]).
  pose proof (wf_port a Hwf) as Hp.
  destruct (Url.port a) as [ds|]; cbn [Url.part].
  - destruct Hp as [Hne Hds].
    rewrite contains_app. cbn [PyStr.contains]. rewrite Ascii.eqb_refl, orb_true_r.
    rewrite split_app by done.
    rewrite split_None by (by eapply all_in_contains).
    cbn [Urlparse.field nth].
    destruct (String.eqb_spec ds "") as [->|_]; [done|].
    destruct (of_str_digits ds Hne Hds) as [-> Hpos].
    cbn [mbind result_bind].
    assert ((0 <=? Url.port_number ds)%Z = true) as -> by lia.
    cbn [andb]. by destruct (_ <=? _)%Z.
  - by rewrite append_nil_r, Hh.
Qed.

(** The kept path is empty or absolute, as the path is. *)
Lemma kept_path_abs a :
  wf_parts a ->
  Url.kept_path a = "" \/ exists r, Url.kept_path a = String "/" r.
Proof.
  intros Hwf. pose proof (wf_path_abs a Hwf) as Hp. unfold Url.kept_path.
  destruct (_ && _) eqn:E.
  - apply andb_true_iff in E as [_ E].
    destruct (Url.path a) as [|c r]; [done|]. subst c. right.
    unfold Urlparse._splitparams.
    change (PyStr.contains "/" (String "/" r)) with true. cbv iota.
    unfold PyStr.find_from.
    destruct (PyStr.rfind "/" (String "/" r)) as [[|j]|] eqn:Ej;
      cbn [default from_option id PyStr.drop].
    + cbn [PyStr.find]. change (Ascii.eqb ";" "/") with false. cbv iota.
      destruct (PyStr.find ";" r); cbn; eauto.
    + destruct (PyStr.find ";" (PyStr.drop j r)); cbn; eauto.
    + cbn [PyStr.find]. change (Ascii.eqb ";" "/") with false. cbv iota.
      destruct (PyStr.find ";" r); cbn; eauto.
  - destruct (Url.path a) as [|c r]; [by left|]. subst c. eauto.
Qed.

Lemma port_canon (b1 b2 : bool) (n : Z) :
  let po := if (n <=? 65535)%Z then Some n else None in
  let port1 := if b1 && bool_decide (po = Some 80%Z) then None else po in
  (if b2 && bool_decide (port1 = Some 443%Z) then None else port1)
  = if (b1 && (n =? 80)%Z) || (b2 && (n =? 443)%Z) || (65535 <? n)%Z
    then None else Some n.
Proof.
  cbv zeta.
  destruct b1, b2, (Z.leb_spec n 65535), (Z.eqb_spec n 80),
    (Z.eqb_spec n 443), (Z.ltb_spec 65535 n);
    cbn [andb orb]; repeat case_bool_decide; try done; try lia;
    simplify_eq; try lia.
Qed.

(** On an absolute URL of the common shape the canonicalizer returns the
    lowercased scheme and host, the port unless it is the default of the
    scheme (or above 65535), and the path up to the parameters of its last
    segment; the query and the fragment are gone. *)
Lemma request_url_render a :
  Url.wf a = true -> request_url (Url.render a) = Ok (Url.canonical a).
Proof.
  intros Hwf%wf_unpack. unfold request_url.
  rewrite (urlparse_render a Hwf). cbn [mbind result_bind].
  rewrite (hostname_render a), (port_render a) by done.
  cbn [mbind result_bind Urlparse.scheme Urlparse.path].
  unfold Url.canonical, Url.kept_port.
  set (sch := PyStr.lower (Url.scheme a)).
  set (h := PyStr.lower (Url.host a)).
  assert (sch <> "") as Hsch by apply lower_nonempty, Hwf.
  assert (h <> "") as Hh by apply lower_nonempty, Hwf.
  assert (forall nl, nl <> "" ->
            Urlparse.urlunparse sch nl (Url.kept_path a) None None None
            = sch +:+ "://" +:+ nl +:+ Url.kept_path a) as Hun.
  { intros nl Hnl. unfold Urlparse.urlunparse, Urlparse.urlunsplit.
    apply String.eqb_neq in Hnl, Hsch. rewrite Hnl, Hsch. cbn [negb orb].
    destruct (kept_path_abs a Hwf) as [->|[r ->]]; [done|].
    reflexivity. }
  destruct (Url.port a) as [ds|].
  - rewrite port_canon. destruct (_ || _).
    + change (mapM id [Some h]) with (Some [h]).
      cbn [mbind result_bind PyStr.join]. by rewrite Hun.
    + change (mapM id [Some h; Some (PyInt.str (Url.port_number ds))])
        with (Some [h; PyInt.str (Url.port_number ds)]).
      cbn [mbind result_bind PyStr.join].
      rewrite Hun, ?append_assoc; [done|by destruct h].
  - rewrite !andb_false_r.
    change (mapM id [Some h]) with (Some [h]).
    cbn [mbind result_bind PyStr.join]. by rewrite Hun.
Qed.

(** C7: what the code returns.  On an absolute URL of the common shape the
    result has the lowercased scheme and host, no query and no fragment, no
    default port and every other port up to 65535; the path passes through
    unmodified when it has no semicolon, and the examples of the spec come
    out as stated.  But the parameters of the last path segment are dropped,
    so a path with a semicolon does not pass through, and the brackets of an
    IPv6 host are stripped. *)
Theorem C7_request_url_on_absolute_urls :
  (forall a, Url.wf a = true ->
     request_url (Url.render a) = Ok (Url.canonical a))
  /\ (forall a, Url.wf a = true -> PyStr.contains ";" (Url.path a) = false ->
        request_url (Url.render a)
        = Ok (PyStr.lower (Url.scheme a) +:+ "://" +:+ PyStr.lower (Url.host a)
                +:+ Url.kept_port a +:+ Url.path a))
  /\ request_url "HTTP://Example.com:80/resource?id=123"
     = Ok "http://example.com/resource"
  /\ request_url "https://Example.com:443/r" = Ok "https://example.com/r"
  /\ request_url "https://example.com:8443/r" = Ok "https://example.com:8443/r"
  /\ request_url "http://example.com:443/r#top" = Ok "http://example.com:443/r"
  /\ request_url "http://example.com/a;b" = Ok "http://example.com/a"
  /\ request_url "http://[::1]:8080/x" = Ok "http://::1:8080/x".
Proof.
  split; [exact request_url_render|]. split; [|by vm_compute].
  intros a Hwf Hsemi. rewrite (request_url_render a Hwf).
  unfold Url.canonical, Url.kept_path. by rewrite Hsemi, andb_false_r.
Qed.

Lemma C7_witness :
  let a := Url.mk "HTTP" "Example.com" (Some "80") "/resource"
                  (Some "id=123") None in
  Url.render a = "HTTP://Example.com:80/resource?id=123"
  /\ request_url (Url.render a)
     = Ok (PyStr.lower (Url.scheme a) +:+ "://" +:+ PyStr.lower (Url.host a)
             +:+ Url.kept_port a +:+ Url.path a)
  /\ Url.canonical a = "http://example.com/resource".
Proof.
  intros a. split; [reflexivity|]. split; [|reflexivity].
  apply (proj1 (proj2 C7_request_url_on_absolute_urls) a); reflexivity.
Defined.

(** * Further properties *)

(** ** The parameter normalizer, continued *)

Lemma pop_cons_eq k v d : PyDict.pop k ((k, v) :: d) = PyDict.pop k d.
Proof.
  unfold PyDict.pop. rewrite filter_cons, decide_False; [done|].
  cbn [fst]. rewrite String.eqb_refl. cbn. tauto.
Qed.

Lemma pop_cons_ne k k' v d :
  k <> k' -> PyDict.pop k ((k', v) :: d) = (k', v) :: PyDict.pop k d.
Proof.
  intros Hne. unfold PyDict.pop. rewrite filter_cons, decide_True; [done|].
  cbn [fst]. apply not_eq_sym, String.eqb_neq in Hne. by rewrite Hne.
Qed.

Lemma pop_setitem k v d :
  PyDict.pop k (PyDict.setitem k v d) = PyDict.pop k d.
Proof.
  induction d as [|[k' v'] d IH]; cbn [PyDict.setitem].
  - by rewrite pop_cons_eq.
  - destruct (String.eqb_spec k k') as [<-|Hne].
    + by rewrite !pop_cons_eq.
    + by rewrite !pop_cons_ne, IH.
Qed.

(** X1: a signature already stored in oauth_params, whatever its value, has
    no influence: the normalizer returns the same string and leaves the same
    objects behind as for the mapping without it. *)
Theorem X1_normalizer_ignores_stored_signature
    oauth get post (h : store) v :
  normalized_request_parameters oauth get post
    (alter (PyDict.setitem "oauth_signature" v) oauth h)
  = normalized_request_parameters oauth get post h.
Proof.
  assert (alter (PyDict.pop "oauth_signature") oauth
            (alter (PyDict.setitem "oauth_signature" v) oauth h)
          = alter (PyDict.pop "oauth_signature") oauth h) as H.
  { apply map_eq. intros l. rewrite !lookup_alter.
    case_decide; [|done]. subst. rewrite decide_True by done.
    destruct (h !! l); cbn; [|done]. by rewrite pop_setitem. }
  rewrite !normalized_unfold. cbv zeta. by rewrite H.
Qed.

Lemma getitem_items k v d :
  PyDict.getitem k d = Some v -> (k, v) ∈ PyDict.items d.
Proof.
  intros H. unfold PyDict.items. apply list_elem_of_omap. exists k.
  rewrite H. split; [|done]. unfold PyDict.keys.
  induction d as [|[k' v'] d IH]; [done|]. cbn in *.
  destruct (String.eqb_spec k k') as [->|_]; [left|right; auto].
Qed.

(** X2: only oauth_params is purged.  An oauth_signature entry of the query
    or body mapping, when that mapping is another object, is among the sorted
    pairs that make up the output. *)
Theorem X2_signature_of_other_mappings_is_kept
    oauth get post (h : store) l v :
  l ∈ omap id [get; post] -> l <> oauth ->
  PyDict.getitem "oauth_signature" (deref h l) = Some v ->
  let res := normalized_request_parameters oauth get post h in
  let sorted := PyStr.sort (collected res.2 (sources oauth get post)) in
  ("oauth_signature", v) ∈ sorted
  /\ res.1 = PyStr.join "&" (map (fun p => p.1 +:+ "=" +:+ p.2) sorted).
Proof.
  intros Hl Hne Hv res sorted. subst res sorted.
  rewrite normalized_fst, normalized_snd. split; [|done].
  rewrite sort_perm. unfold collected, sources.
  apply list_elem_of_In, in_flat_map. exists l. split.
  - apply list_elem_of_In. by right.
  - apply list_elem_of_In, getitem_items.
    rewrite deref_alter by done. by rewrite decide_False.
Qed.

Lemma X2_witness :
  let h : store :=
    <[1%positive := [("oauth_signature", "x"); ("a", "1")]]>
      {[ 2%positive := [("oauth_signature", "forged"); ("b", "2")] ]} in
  ("oauth_signature", "forged")
    ∈ PyStr.sort
        (collected
           (normalized_request_parameters 1%positive (Some 2%positive) None h).2
           (sources 1%positive (Some 2%positive) None))
  /\ (normalized_request_parameters 1%positive (Some 2%positive) None h).1
     = "a=1&b=2&oauth_signature=forged".
Proof.
  intros h. split; [|vm_compute; reflexivity].
  apply (X2_signature_of_other_mappings_is_kept 1%positive (Some 2%positive) None h
           2%positive "forged"); [by left|done|reflexivity].
Defined.

(** X3: it makes no difference which of the two additional mappings holds a
    parameter: with the query and body mappings exchanged the normalizer
    returns the same string and leaves the same objects behind. *)
Theorem X3_query_and_body_are_interchangeable
    oauth (h : store) a b :
  normalized_request_parameters oauth (Some a) (Some b) h
  = normalized_request_parameters oauth (Some b) (Some a) h.
Proof.
  rewrite !normalized_unfold. cbv zeta. do 3 f_equal.
  apply sort_unique. unfold collected, sources. cbn [omap list_omap id flat_map].
  rewrite !app_nil_r. f_equiv. apply Permutation_app_comm.
Qed.

Lemma sort_sorted_id l :
  StronglySorted PyStr.tuple_le l -> PyStr.sort l = l.
Proof.
  intros H. apply (StronglySorted_unique PyStr.tuple_le);
    [apply sort_sorted|done|apply sort_perm].
Qed.

(** X4: the output does not tell one parameter from two.  Since nothing is
    encoded, a single value that spells out an ampersand, a second name and
    an equals sign gives the very string of two separate parameters. *)
Theorem X4_unencoded_values_collide k v k' v' :
  Spec.bytes_lt k k' -> k <> "oauth_signature" -> k' <> "oauth_signature" ->
  (normalized_request_parameters 1%positive None None
     {[ 1%positive := [(k, v +:+ "&" +:+ k' +:+ "=" +:+ v')] ]}).1
  = (normalized_request_parameters 1%positive None None
       {[ 1%positive := [(k, v); (k', v')] ]}).1
  /\ [(k, v +:+ "&" +:+ k' +:+ "=" +:+ v')] <> [(k, v); (k', v')].
Proof.
  intros Hlt Hk Hk'. split; [|done].
  assert (k <> k') as Hne.
  { intros ->. by apply bytes_lt_irrefl in Hlt. }
  rewrite !normalized_fst. unfold collected, sources.
  cbn [omap list_omap id flat_map]. rewrite !alter_singleton_eq, !deref_singleton.
  rewrite !pop_cons_ne by done. unfold PyDict.pop. rewrite filter_nil.
  rewrite !items_wf, !app_nil_r.
  - rewrite !sort_sorted_id.
    + cbn [map PyStr.join fst snd]. by rewrite !append_assoc.
    + repeat constructor. apply tuple_le_iff. by left.
    + repeat constructor.
  - unfold PyDict.wf. cbn [fmap list_fmap fst].
    apply NoDup_cons. split; [|apply NoDup_singleton].
    by intros ?%list_elem_of_singleton.
  - unfold PyDict.wf. apply NoDup_singleton.
Qed.

Lemma X4_witness :
  (normalized_request_parameters 1%positive None None
     {[ 1%positive := [("amount", "1&to=mallory")] ]}).1
  = (normalized_request_parameters 1%positive None None
       {[ 1%positive := [("amount", "1"); ("to", "mallory")] ]}).1.
Proof.
  apply (X4_unencoded_values_collide "amount" "1" "to" "mallory");
    [|done|done].
  apply cmp_lt_iff. reflexivity.
Defined.

Lemma cut_app c a b :
  PyStr.contains c a = false -> Urlparse.cut c (a +:+ String c b) = (a, b).
Proof.
  intros Ha. unfold Urlparse.cut. rewrite (find_app _ _ _ Ha), find_head.
  cbn [fmap option_fmap option_map].
  by rewrite Nat.add_0_r, take_app, drop_app_S.
Qed.

Lemma join_cons sep x y r :
  PyStr.join sep (x :: y :: r) = x +:+ sep +:+ PyStr.join sep (y :: r).
Proof. reflexivity. Qed.

Lemma join_split c xs :
  xs <> [] -> Forall (fun x => PyStr.contains c x = false) xs ->
  PyStr.split c (PyStr.join (String c "") xs) = xs.
Proof.
  intros Hne H. induction H as [|x xs Hx Hxs IH]; [done|].
  destruct xs as [|y xs].
  - by apply split_None.
  - rewrite join_cons.
    change (x +:+ String c "" +:+ ?j) with (x +:+ String c j).
    rewrite split_app by done. f_equal. by apply IH.
Qed.

Lemma pair_string_inj (p q : string * string) :
  PyStr.contains "=" p.1 = false -> PyStr.contains "=" q.1 = false ->
  p.1 +:+ "=" +:+ p.2 = q.1 +:+ "=" +:+ q.2 -> p = q.
Proof.
  destruct p as [k v], q as [k' v']. cbn [fst snd]. intros Hk Hk' H.
  apply (f_equal (Urlparse.cut "=")) in H.
  change (?a +:+ "=" +:+ ?b) with (a +:+ String "=" b) in H.
  rewrite !cut_app in H by done. congruence.
Qed.

(** The joined string of plain pairs determines the pairs. *)
Lemma join_pairs_inj l1 l2 :
  Forall plain_pair l1 -> Forall plain_pair l2 ->
  PyStr.join "&" (map (fun p => p.1 +:+ "=" +:+ p.2) l1)
  = PyStr.join "&" (map (fun p => p.1 +:+ "=" +:+ p.2) l2) ->
  l1 = l2.
Proof.
  intros H1 H2 Heq.
  assert (forall l, Forall plain_pair l ->
            Forall (fun x => PyStr.contains "&" x = false)
                   (map (fun p => p.1 +:+ "=" +:+ p.2) l)) as Hamp.
  { intros l Hl. apply Forall_map. eapply Forall_impl; [exact Hl|].
    intros [k v] (Hk & _ & Hv). cbn [fst snd] in *.
    by rewrite !contains_app, Hk, Hv. }
  assert (forall l, l <> [] ->
            PyStr.contains "="
              (PyStr.join "&" (map (fun p => p.1 +:+ "=" +:+ p.2) l)) = true)
    as Heqs.
  { intros [|[k v] l] Hl; [done|]. cbn [map PyStr.join fst snd].
    destruct (map _ l); rewrite !contains_app; cbn [PyStr.contains];
      rewrite Ascii.eqb_refl; by rewrite orb_true_r. }
  destruct l1 as [|p1 l1], l2 as [|p2 l2]; [done| | |].
  - pose proof (Heqs (p2 :: l2) ltac:(done)) as H. by rewrite <- Heq in H.
  - pose proof (Heqs (p1 :: l1) ltac:(done)) as H. by rewrite Heq in H.
  - apply (f_equal (PyStr.split "&")) in Heq.
    rewrite !(join_split "&") in Heq by (try done; by apply Hamp).
    clear Hamp Heqs. revert H1 H2 Heq.
    generalize (p1 :: l1) (p2 :: l2). clear.
    induction l as [|p l IH]; intros [|q l'] H1 H2 Heq; try done.
    apply Forall_cons in H1 as [(_ & Hp & _) H1].
    apply Forall_cons in H2 as [(_ & Hq & _) H2].
    cbn [map] in Heq. injection Heq as Hpq Heq.
    f_equal; [by apply pair_string_inj|by apply IH].
Qed.

(** X5: as long as no name holds an ampersand or an equals sign and no value
    an ampersand, the output determines the parameters: two calls that
    return the same string have collected the same pairs, each as often. *)
Theorem X5_plain_parameters_are_determined_by_the_output
    oauth get post (h : store) oauth' get' post' (h' : store) :
  let res := normalized_request_parameters oauth get post h in
  let res' := normalized_request_parameters oauth' get' post' h' in
  Forall plain_pair (collected res.2 (sources oauth get post)) ->
  Forall plain_pair (collected res'.2 (sources oauth' get' post')) ->
  res.1 = res'.1 ->
  collected res.2 (sources oauth get post)
  ≡ₚ collected res'.2 (sources oauth' get' post').
Proof.
  intros res res' H1 H2. subst res res'. revert H1 H2.
  rewrite !normalized_fst, !normalized_snd. intros H1 H2 Heq.
  apply join_pairs_inj in Heq; [|by rewrite sort_perm..].
  by rewrite <- (sort_perm (collected _ (sources oauth get post))), Heq,
    sort_perm.
Qed.

Lemma X5_witness :
  let h : store := {[ 1%positive := [("b", "2"); ("a", "1")] ]} in
  let h' : store :=
    <[1%positive := [("a", "1")]]> {[ 2%positive := [("b", "2")] ]} in
  collected (normalized_request_parameters 1%positive None None h).2
            (sources 1%positive None None)
  ≡ₚ collected
       (normalized_request_parameters 1%positive (Some 2%positive) None h').2
       (sources 1%positive (Some 2%positive) None).
Proof.
  intros h h'.
  apply (X5_plain_parameters_are_determined_by_the_output
           1%positive None None h 1%positive (Some 2%positive) None h').
  - vm_compute. repeat constructor.
  - vm_compute. repeat constructor.
  - vm_compute. reflexivity.
Defined.

(** ** quote_plus *)

Lemma cat_app xs ys : PyStr.cat (xs ++ ys)%list = PyStr.cat xs +:+ PyStr.cat ys.
Proof.
  induction xs as [|x xs IH]; [done|]. cbn [app PyStr.cat].
  by rewrite IH, append_assoc.
Qed.

Lemma map_chars_app f a b :
  PyStr.map_chars f (a +:+ b) = PyStr.map_chars f a +:+ PyStr.map_chars f b.
Proof. induction a as [|x a IH]; simpl; [done|]. by rewrite IH. Qed.

Lemma replace_app x y a b :
  PyStr.replace x y (a +:+ b) = PyStr.replace x y a +:+ PyStr.replace x y b.
Proof. apply map_chars_app. Qed.

Lemma quoter_space_safe c :
  PyStr.mem c (Urllib.always_safe +:+ " ") = true ->
  Urllib.quoter " " c = String c "".
Proof. destruct c as [[] [] [] [] [] [] [] []]; vm_compute; congruence. Qed.

Lemma replace_quoter c :
  PyStr.replace " " "+" (Urllib.quoter " " c) = Quoted.char c.
Proof. destruct c as [[] [] [] [] [] [] [] []]; reflexivity. Qed.

Lemma quoted_char_no_space c :
  c <> " "%char -> Quoted.char c = Urllib.quoter "" c.
Proof.
  intros H. unfold Quoted.char. by destruct (Ascii.eqb_spec c " ").
Qed.

(** [quote_plus] works character by character, whichever of its branches
    and shortcuts is taken. *)
Lemma quote_plus_chars s :
  Urllib.quote_plus s
  = PyStr.cat (map Quoted.char (list_ascii_of_string s)).
Proof.
  unfold Urllib.quote_plus. destruct (PyStr.contains " " s) eqn:Hsp.
  - unfold Urllib.quote. destruct s as [|c0 s0] eqn:Es; [done|].
    rewrite <- Es. clear Es Hsp c0 s0.
    assert (PyStr.replace " " "+"
              (PyStr.cat (map (Urllib.quoter " ") (list_ascii_of_string s)))
            = PyStr.cat (map Quoted.char (list_ascii_of_string s))) as Hrep.
    { induction s as [|c s IH]; [done|]. cbn [list_ascii_of_string map PyStr.cat].
      by rewrite replace_app, IH, replace_quoter. }
    destruct (PyStr.all_in _ s) eqn:E; [|done].
    rewrite <- Hrep. f_equal. clear Hrep.
    induction s as [|c s IH]; [done|]. cbn [PyStr.all_in] in E.
    apply andb_true_iff in E as [Hc Hs].
    cbn [list_ascii_of_string map PyStr.cat].
    by rewrite (quoter_space_safe c Hc), <- (IH Hs).
  - rewrite quote_chars. f_equal.
    induction s as [|c s IH]; [done|]. cbn [PyStr.contains] in Hsp.
    cbn [list_ascii_of_string map].
    destruct (Ascii.eqb_spec " " c) as [|Hne]; [done|].
    by rewrite IH, quoted_char_no_space by congruence.
Qed.

Lemma all_in_app chars a b :
  PyStr.all_in chars (a +:+ b) = PyStr.all_in chars a && PyStr.all_in chars b.
Proof.
  induction a as [|x a IH]; simpl; [done|]. by rewrite IH, andb_assoc.
Qed.

Lemma quoted_char_alphabet c :
  PyStr.all_in Quoted.alphabet (Quoted.char c) = true.
Proof. destruct c as [[] [] [] [] [] [] [] []]; reflexivity. Qed.

(** Whatever goes in, only letters, digits and [_.-%+] come out. *)
Lemma quote_plus_alphabet s :
  PyStr.all_in Quoted.alphabet (Urllib.quote_plus s) = true.
Proof.
  rewrite quote_plus_chars. induction s as [|c s IH]; [done|].
  cbn [list_ascii_of_string map PyStr.cat].
  by rewrite all_in_app, quoted_char_alphabet, IH.
Qed.

Lemma quote_plus_free s c :
  PyStr.contains c Quoted.alphabet = false ->
  PyStr.contains c (Urllib.quote_plus s) = false.
Proof. apply all_in_contains, quote_plus_alphabet. Qed.

Lemma head_char c t : Quoted.head (Quoted.char c +:+ t) = Some (c, t).
Proof. destruct c as [[] [] [] [] [] [] [] []]; reflexivity. Qed.

(** Two strings with the same quoted form are the same string. *)
Lemma quote_plus_inj s1 s2 :
  Urllib.quote_plus s1 = Urllib.quote_plus s2 -> s1 = s2.
Proof.
  rewrite !quote_plus_chars. revert s2.
  induction s1 as [|c1 s1 IH]; intros [|c2 s2];
    cbn [list_ascii_of_string map PyStr.cat]; intros H; [done| | |].
  - apply (f_equal Quoted.head) in H. by rewrite head_char in H.
  - apply (f_equal Quoted.head) in H. by rewrite head_char in H.
  - apply (f_equal Quoted.head) in H. rewrite !head_char in H.
    injection H as -> H. f_equal. by apply IH.
Qed.

(** ** The shape of the signed and attached strings *)

Lemma count_char_free c s : PyStr.contains c s = false -> count_char c s = 0.
Proof.
  induction s as [|d s IH]; [done|]. cbn [PyStr.contains count_char].
  destruct (Ascii.eqb c d); [done|]. intros H. by rewrite IH.
Qed.

Lemma count_char_quoted c x :
  PyStr.contains c Quoted.alphabet = false ->
  count_char c (Urllib.quote_plus x) = 0.
Proof. intros H. by apply count_char_free, quote_plus_free. Qed.

Lemma base_string_form m u oauth get post (h : store) s h' :
  signature_base_string m u oauth get post h = Ok (s, h') ->
  exists u',
    request_url u = Ok u'
    /\ s = Urllib.quote_plus (PyStr.upper m) +:+ "&" +:+ Urllib.quote_plus u'
           +:+ "&"
           +:+ Urllib.quote_plus
                 (normalized_request_parameters oauth get post h).1.
Proof.
  rewrite signature_base_string_unfold.
  destruct (request_url u) as [u'|e]; [|done]. intros [= <- _]. eauto.
Qed.

(** X6: a base string always has exactly two ampersands, the ones between
    its three elements, and apart from them only letters, digits and the
    characters _ . - % +, whatever the method, the URL and the parameters
    contain. *)
Theorem X6_base_string_has_three_fields
    m u oauth get post (h : store) s h' :
  signature_base_string m u oauth get post h = Ok (s, h') ->
  count_char "&" s = 2
  /\ PyStr.all_in (Quoted.alphabet +:+ "&") s = true
  /\ exists a b c,
       PyStr.split "&" s = [a; b; c]
       /\ a = Urllib.quote_plus (PyStr.upper m)
       /\ Ok b = Urllib.quote_plus <$> request_url u.
Proof.
  intros (u' & Hu & ->)%base_string_form. split; [|split].
  - rewrite !count_char_app, !count_char_quoted by done. reflexivity.
  - rewrite !all_in_app.
    assert (forall x, PyStr.all_in (Quoted.alphabet +:+ "&")
                        (Urllib.quote_plus x) = true) as Hq.
    { intros x. generalize (quote_plus_alphabet x).
      generalize (Urllib.quote_plus x). clear.
      induction s as [|c s IH]; [done|]. cbn [PyStr.all_in].
      intros [Hc Hs]%andb_true_iff. rewrite (IH Hs), andb_true_r.
      unfold PyStr.mem in *. rewrite contains_app, Hc. done. }
    by rewrite !Hq.
  - eexists _, _, _. split; [|split; [reflexivity|by rewrite Hu]].
    change (?a +:+ "&" +:+ ?b +:+ "&" +:+ ?c)
      with (a +:+ String "&" (b +:+ String "&" c)).
    rewrite !split_app, split_None by by apply quote_plus_free.
    reflexivity.
Qed.

Lemma X6_witness :
  let h : store := {[ 1%positive := [("k", "v w&x=y")] ]} in
  let s := "POST&http%3A%2F%2Fexample.com%2Fa%26b&k%3Dv+w%26x%3Dy" in
  signature_base_string "post" "http://Example.com/a&b?x=1" 1%positive None
    None h = Ok (s, h)
  /\ count_char "&" s = 2.
Proof.
  intros h s.
  assert (signature_base_string "post" "http://Example.com/a&b?x=1"
            1%positive None None h = Ok (s, h)) as H
    by (vm_compute; reflexivity).
  split; [exact H|].
  exact (proj1 (X6_base_string_has_three_fields _ _ _ _ _ _ _ _ H)).
Defined.

(** X7: the base string determines what was signed.  Two calls that return
    the same base string had the same method up to case, the same canonical
    URL and the same normalized parameter string. *)
Theorem X7_base_string_determines_its_elements
    m u oauth get post (h : store) m' u' oauth' get' post' (h' : store)
    s k k' :
  signature_base_string m u oauth get post h = Ok (s, k) ->
  signature_base_string m' u' oauth' get' post' h' = Ok (s, k') ->
  PyStr.upper m = PyStr.upper m'
  /\ request_url u = request_url u'
  /\ (normalized_request_parameters oauth get post h).1
     = (normalized_request_parameters oauth' get' post' h').1.
Proof.
  intros (c & Hc & ->)%base_string_form (c' & Hc' & H)%base_string_form.
  rewrite Hc, Hc'.
  apply (f_equal (PyStr.split "&")) in H. revert H.
  change (?a +:+ "&" +:+ ?b +:+ "&" +:+ ?c)
    with (a +:+ String "&" (b +:+ String "&" c)).
  rewrite !split_app, !split_None by by apply quote_plus_free.
  intros [= H1 H2 H3].
  apply quote_plus_inj in H1, H2, H3. by subst.
Qed.

Lemma X7_witness :
  PyStr.upper "get" = PyStr.upper "GET"
  /\ request_url "HTTP://Example.com:80/r?x" = request_url "http://example.com/r"
  /\ (normalized_request_parameters 1%positive None None
        {[ 1%positive := [("a", "1"); ("oauth_signature", "s")] ]}).1
     = (normalized_request_parameters 1%positive None None
          {[ 1%positive := [("a", "1")] ]}).1.
Proof.
  eapply (X7_base_string_determines_its_elements
            "get" "HTTP://Example.com:80/r?x" 1%positive None None
            {[ 1%positive := [("a", "1"); ("oauth_signature", "s")] ]}
            "GET" "http://example.com/r" 1%positive None None
            {[ 1%positive := [("a", "1")] ]});
    vm_compute; reflexivity.
Defined.

(** X8: the signing key determines both secrets: two signers with the same
    key have the same consumer secret and the same token secret, so no
    secret can pass for a part of the other. *)
Theorem X8_signing_key_determines_the_secrets self self' :
  HMACSHA1Auth.signing_key self = HMACSHA1Auth.signing_key self' ->
  AuthBase.consumer_secret self = AuthBase.consumer_secret self'
  /\ AuthBase.token_secret self = AuthBase.token_secret self'.
Proof.
  unfold HMACSHA1Auth.signing_key. intros H.
  apply (f_equal (Urlparse.cut "&")) in H. revert H.
  change (?a +:+ "&" +:+ ?b) with (a +:+ String "&" b).
  rewrite !cut_app by by apply quote_plus_free.
  intros [= H1 H2]. by apply quote_plus_inj in H1, H2.
Qed.

Lemma X8_witness :
  let self := AuthBase.__init__ "ck" "a&b" None (Some "c") "oob" in
  let self' := AuthBase.__init__ "other" "a&b" (Some "tk") (Some "c") "cb" in
  AuthBase.consumer_secret self = AuthBase.consumer_secret self'
  /\ AuthBase.token_secret self = AuthBase.token_secret self'.
Proof.
  intros self self'.
  apply (X8_signing_key_determines_the_secrets self self'). reflexivity.
Defined.

Lemma all_in_wider chars more s :
  PyStr.all_in chars s = true -> PyStr.all_in (chars +:+ more) s = true.
Proof.
  induction s as [|c s IH]; [done|]. cbn [PyStr.all_in].
  intros [Hc Hs]%andb_true_iff. rewrite (IH Hs), andb_true_r.
  unfold PyStr.mem in *. by rewrite contains_app, Hc.
Qed.

Lemma quote_plus_alphabet_wider more x :
  PyStr.all_in (Quoted.alphabet +:+ more) (Urllib.quote_plus x) = true.
Proof. apply all_in_wider, quote_plus_alphabet. Qed.

(** The serialized parameters, pair by pair. *)
Lemma serialized_form self utils sig :
  serialized self utils sig
  = PyStr.join "&"
      (map (fun kv => Urllib.quote_plus kv.1 +:+ "=" +:+ Urllib.quote_plus kv.2)
           (oauth_parameter_set self utils ++ [("oauth_signature", sig)])).
Proof. reflexivity. Qed.

(** X9: what a successful call attaches is a string of exactly seven
    name=value pairs: six ampersands, seven equals signs and otherwise only
    letters, digits and the characters _ . - % +.  No consumer key, nonce or
    callback URL, whatever it contains, can add or split a parameter. *)
Theorem X9_attached_string_has_seven_pairs self utils r r' :
  HMACSHA1Auth.__call__ self utils r = Ok r' ->
  exists p,
    (if String.eqb (method r) "GET"
     then url r' = url r +:+ "?" +:+ p
     else PyDict.getitem "Authorization" (headers r') = Some ("OAuth " +:+ p))
    /\ count_char "&" p = 6
    /\ count_char "=" p = 7
    /\ PyStr.all_in (Quoted.alphabet +:+ "&=") p = true.
Proof.
  rewrite hmac_call_unfold.
  destruct (request_url (url r)) as [u|e]; [|done]. cbv zeta.
  set (p := serialized self utils _). intros H. exists p. split.
  - destruct (method r =? "GET")%string; injection H as <-; [done|].
    apply getitem_setitem_eq.
  - clear H. subst p. rewrite serialized_form.
    generalize (signature_of self (base_string self utils r u)). intros sig.
    cbn [oauth_parameter_set app map fst snd]. rewrite !join_cons.
    cbn [PyStr.join].
    rewrite !count_char_app, !(count_char_quoted "&"), !(count_char_quoted "=")
      by done.
    split; [reflexivity|]. split; [reflexivity|].
    rewrite !all_in_app, !quote_plus_alphabet_wider. reflexivity.
Qed.

Lemma X9_witness :
  let self := AuthBase.__init__ "k&admin=1" "cs" None None "http://c/?a=b&c=d" in
  let utils := mkUtils 1191242096 "n=1&x" in
  let r := mkRequest "POST" "http://example.com/r" [] [] [] in
  let p :=
    "oauth_consumer_key=k%26admin%3D1&oauth_signature_method=HMAC-SHA1&oauth_timestamp=1191242096&oauth_nonce=n%3D1%26x&oauth_version=1.0&oauth_callback=http%3A%2F%2Fc%2F%3Fa%3Db%26c%3Dd&oauth_signature=fuYiPTfTcIDzNcBZqDqJk1ej0Aw%3D" in
  HMACSHA1Auth.__call__ self utils r
  = Ok (set_header "Authorization" ("OAuth " +:+ p) r)
  /\ exists p',
       PyDict.getitem "Authorization" [("Authorization", "OAuth " +:+ p)]
       = Some ("OAuth " +:+ p')
       /\ count_char "&" p' = 6 /\ count_char "=" p' = 7.
Proof.
  intros self utils r p.
  assert (HMACSHA1Auth.__call__ self utils r
          = Ok (set_header "Authorization" ("OAuth " +:+ p) r)) as H
    by (vm_compute; reflexivity).
  split; [exact H|].
  destruct (X9_attached_string_has_seven_pairs self utils r _ H)
    as (p' & Hp & Ha & He & _).
  exists p'. exact (conj Hp (conj Ha He)).
Defined.

(** ** The size of a signature *)

Lemma be_bytes_length n x : List.length (Sha1.be_bytes n x) = n.
Proof. induction n as [|n IH]; [done|]. cbn [Sha1.be_bytes List.length]. by rewrite IH. Qed.

Lemma sha1_digest_length msg : List.length (Sha1.digest msg) = 20.
Proof.
  unfold Sha1.digest.
  destruct (Sha1.blocks _ _ _) as [[[[h0 h1] h2] h3] h4].
  by rewrite !List.length_app, !be_bytes_length.
Qed.

Lemma hmac_digest_length key msg : List.length (Hmac.digest key msg) = 20.
Proof. apply sha1_digest_length. Qed.

Lemma bytes_of_str_length s : List.length (bytes_of_str s) = String.length s.
Proof.
  unfold bytes_of_str. rewrite length_map.
  induction s as [|c s IH]; [done|]. cbn. by rewrite IH.
Qed.

Lemma str_of_bytes_length bs : String.length (str_of_bytes bs) = List.length bs.
Proof.
  unfold str_of_bytes. induction bs as [|b bs IH]; [done|]. cbn. by rewrite IH.
Qed.

Lemma get_contains n s c : String.get n s = Some c -> PyStr.contains c s = true.
Proof.
  revert n. induction s as [|d s IH]; intros n; [done|].
  cbn [String.get PyStr.contains]. destruct n as [|n].
  - intros [= ->]. by rewrite Ascii.eqb_refl.
  - intros H. apply IH in H. rewrite H. by destruct (Ascii.eqb c d).
Qed.

Lemma base64_char_alphabet i :
  PyStr.mem (Base64.char i) (Base64.alphabet +:+ "=") = true.
Proof.
  unfold Base64.char, PyStr.mem.
  destruct (String.get _ _) as [c|] eqn:E.
  - apply get_contains in E. by rewrite contains_app, E.
  - reflexivity.
Qed.

(** Three octets make four characters, and so does what is left of them. *)
Lemma base64_encode_shape bs :
  String.length (Base64.encode bs) = 4 * ((List.length bs + 2) / 3)
  /\ PyStr.all_in (Base64.alphabet +:+ "=") (Base64.encode bs) = true.
Proof.
  assert (forall n bs, List.length bs < n ->
            String.length (Base64.encode bs) = 4 * ((List.length bs + 2) / 3)
            /\ PyStr.all_in (Base64.alphabet +:+ "=") (Base64.encode bs) = true)
    as H; [|apply (H (S (List.length bs))); lia].
  clear bs. induction n as [|n IH]; intros bs Hn; [lia|].
  destruct bs as [|a [|b [|c bs]]].
  - done.
  - split; [reflexivity|].
    cbn [Base64.encode PyStr.all_in]. by rewrite !base64_char_alphabet.
  - split; [reflexivity|].
    cbn [Base64.encode PyStr.all_in]. by rewrite !base64_char_alphabet.
  - cbn [Base64.encode PyStr.all_in String.length List.length] in *.
    rewrite !base64_char_alphabet. destruct (IH bs) as [-> ->]; [lia|].
    split; [|done].
    replace (S (S (S (List.length bs))) + 2) with (List.length bs + 2 + 1 * 3)
      by lia.
    rewrite Nat.div_add by done. lia.
Qed.

(** X10: every signature that is generated has 28 characters, all of them
    from the base64 alphabet or the padding sign, whatever is signed and
    whatever the secrets are. *)
Theorem X10_signature_is_28_base64_characters
    self r oauth (h : store) s h' :
  HMACSHA1Auth.generate_signature self r oauth h = Ok (s, h') ->
  String.length s = 28
  /\ PyStr.all_in (Base64.alphabet +:+ "=") s = true.
Proof.
  unfold HMACSHA1Auth.generate_signature.
  destruct (AuthBase.signature_base_string self r oauth h) as [[b h1]|e];
    [|done].
  cbn [mbind result_bind]. intros [= <- _].
  unfold Base64.b64encode, HMACSHA1Auth.hmac_sha1.
  destruct (base64_encode_shape
              (bytes_of_str
                 (str_of_bytes
                    (Hmac.digest (bytes_of_str (HMACSHA1Auth.signing_key self))
                                 (bytes_of_str b))))) as [Hl Ha].
  split; [|exact Ha].
  by rewrite Hl, bytes_of_str_length, str_of_bytes_length, hmac_digest_length.
Qed.

Lemma X10_witness :
  let self := AuthBase.__init__ "ck" "djr9rjt0jd78jf88" None
                                (Some "jjd999tj88uiths3") "oob" in
  let r := mkRequest "GET" "http://example.com/r" [] [] [] in
  let h : store := {[ 1%positive := [("oauth_consumer_key", "ck")] ]} in
  let s := "xcnBnCbVF8knAuIkzqTddK4G/UE=" in
  HMACSHA1Auth.generate_signature self r 1%positive h = Ok (s, h)
  /\ String.length s = 28.
Proof.
  intros self r h s.
  assert (HMACSHA1Auth.generate_signature self r 1%positive h = Ok (s, h))
    as H by (vm_compute; reflexivity).
  split; [exact H|].
  exact (proj1 (X10_signature_is_28_base64_characters
                  self r 1%positive h s h H)).
Defined.

(** ** The method of the request *)

(** X11: the method is uppercased for the signature but compared as it is
    for the attachment.  A request whose method is GET in another case is
    signed exactly like the GET request, and yet the parameters go into the
    Authorization header and not into the URL. *)
Theorem X11_method_is_signed_uppercased_but_tested_as_given
    self utils r u :
  PyStr.upper (method r) = "GET" -> method r <> "GET" ->
  request_url (url r) = Ok u ->
  let g := mkRequest "GET" (url r) (headers r) (params r) (data r) in
  exists p,
    HMACSHA1Auth.__call__ self utils g = Ok (set_url (url r +:+ "?" +:+ p) g)
    /\ HMACSHA1Auth.__call__ self utils r
       = Ok (set_header "Authorization" ("OAuth " +:+ p) r).
Proof.
  intros Hup Hne Hu g.
  exists (serialized self utils (signature_of self (base_string self utils r u))).
  rewrite !hmac_call_unfold. subst g. cbn [url method]. rewrite Hu. cbv zeta.
  apply String.eqb_neq in Hne. rewrite Hne, String.eqb_refl.
  split; [|done]. do 4 f_equal. unfold base_string. cbn [method].
  by rewrite Hup.
Qed.

Lemma X11_witness :
  let self := AuthBase.__init__ "ck" "cs" None None "oob" in
  let utils := mkUtils 1191242096 "n" in
  let r := mkRequest "get" "http://example.com/r" [] [] [] in
  exists p,
    HMACSHA1Auth.__call__ self utils
      (mkRequest "GET" (url r) (headers r) (params r) (data r))
    = Ok (set_url (url r +:+ "?" +:+ p)
            (mkRequest "GET" (url r) (headers r) (params r) (data r)))
    /\ HMACSHA1Auth.__call__ self utils r
       = Ok (set_header "Authorization" ("OAuth " +:+ p) r).
Proof.
  intros self utils r.
  apply (X11_method_is_signed_uppercased_but_tested_as_given
           self utils r "http://example.com/r");
    [reflexivity|discriminate|vm_compute; reflexivity].
Defined.

(** ** What the request URL never contains *)

Lemma contains_take c n s :
  PyStr.contains c s = false -> PyStr.contains c (PyStr.take n s) = false.
Proof.
  revert n. induction s as [|d s IH]; intros [|n]; try done.
  cbn [PyStr.contains PyStr.take]. destruct (Ascii.eqb c d); [done|]. apply IH.
Qed.

Lemma contains_drop c n s :
  PyStr.contains c s = false -> PyStr.contains c (PyStr.drop n s) = false.
Proof.
  revert n. induction s as [|d s IH]; intros [|n]; try done.
  cbn [PyStr.contains PyStr.drop]. destruct (Ascii.eqb c d); [done|]. apply IH.
Qed.

(** A prefix that ends at or before the first [c] has no [c]. *)
Lemma contains_take_find c n s :
  match PyStr.find c s with Some i => n <= i | None => True end ->
  PyStr.contains c (PyStr.take n s) = false.
Proof.
  revert n. induction s as [|d s IH]; intros [|n]; try done.
  cbn [PyStr.find PyStr.contains PyStr.take].
  destruct (Ascii.eqb c d); [lia|]. intros H. apply IH.
  destruct (PyStr.find c s); cbn in *; [lia|done].
Qed.

Lemma cut_fst_free c s : PyStr.contains c (Urlparse.cut c s).1 = false.
Proof.
  unfold Urlparse.cut. destruct (PyStr.find c s) as [i|] eqn:E; cbn [fst].
  - apply contains_take_find. by rewrite E.
  - revert E. induction s as [|d s IH]; [done|]. cbn [PyStr.find PyStr.contains].
    destruct (Ascii.eqb c d); [done|]. destruct (PyStr.find c s); [done|]. auto.
Qed.

Lemma cut_fst_keeps c d s :
  PyStr.contains d s = false -> PyStr.contains d (Urlparse.cut c s).1 = false.
Proof.
  intros H. unfold Urlparse.cut. destruct (PyStr.find c s); cbn [fst];
    [by apply contains_take|done].
Qed.

Lemma splitparams_fst_keeps d s :
  PyStr.contains d s = false ->
  PyStr.contains d (Urlparse._splitparams s).1 = false.
Proof.
  intros H. unfold Urlparse._splitparams.
  repeat case_match; cbn [fst]; try done; by apply contains_take.
Qed.

(** The fields of a split have only characters of the string. *)
Lemma split_fields_keep c d s :
  PyStr.contains d s = false ->
  Forall (fun x => PyStr.contains d x = false) (PyStr.split c s).
Proof.
  induction s as [|e s IH]; [by repeat constructor|].
  cbn [PyStr.contains PyStr.split]. destruct (Ascii.eqb d e) eqn:E; [done|].
  intros H. specialize (IH H). destruct (Ascii.eqb c e).
  - by constructor.
  - destruct (PyStr.split c s) as [|f fs].
    + constructor; [|done]. cbn [PyStr.contains]. by rewrite E.
    + apply Forall_cons in IH as [Hf Hfs]. constructor; [|done].
      cbn [PyStr.contains]. by rewrite E.
Qed.

Lemma last_field_keeps d l :
  Forall (fun x => PyStr.contains d x = false) l ->
  PyStr.contains d (Urlparse.last_field l) = false.
Proof.
  unfold Urlparse.last_field. induction 1 as [|x l Hx Hl IH]; [done|].
  destruct l; [done|]. exact IH.
Qed.

Lemma field_keeps d n l :
  Forall (fun x => PyStr.contains d x = false) l ->
  PyStr.contains d (Urlparse.field n l) = false.
Proof.
  unfold Urlparse.field. intros H. revert n.
  induction H as [|x l Hx Hl IH]; intros [|n]; try done. apply IH.
Qed.

Lemma lower_char_query d : Ascii.eqb "?" (PyStr.lower_char d) = Ascii.eqb "?" d.
Proof. destruct d as [[] [] [] [] [] [] [] []]; reflexivity. Qed.

Lemma lower_char_hash d : Ascii.eqb "#" (PyStr.lower_char d) = Ascii.eqb "#" d.
Proof. destruct d as [[] [] [] [] [] [] [] []]; reflexivity. Qed.

Lemma lower_keeps c s :
  (c = "?" \/ c = "#")%char ->
  PyStr.contains c (PyStr.lower s) = PyStr.contains c s.
Proof.
  intros Hc. induction s as [|d s IH]; [done|].
  cbn [PyStr.lower PyStr.map_chars PyStr.contains].
  fold (PyStr.lower s). rewrite IH.
  destruct Hc as [-> | ->]; by rewrite ?lower_char_query, ?lower_char_hash.
Qed.

Lemma digit_char_digit d :
  (0 <= d < 10)%Z -> PyStr.mem (PyInt.digit_char d) "0123456789" = true.
Proof.
  intros H.
  assert (d = 0 \/ d = 1 \/ d = 2 \/ d = 3 \/ d = 4 \/ d = 5 \/ d = 6
          \/ d = 7 \/ d = 8 \/ d = 9)%Z as Hd by lia.
  repeat (destruct Hd as [-> | Hd]; [reflexivity|]). by subst.
Qed.

Lemma digits_digits fuel n acc :
  PyStr.all_in "0123456789" acc = true ->
  PyStr.all_in "0123456789" (PyInt.digits fuel n acc) = true.
Proof.
  revert n acc. induction fuel as [|fuel IH]; intros n acc Hacc; [done|].
  cbn [PyInt.digits].
  assert (PyStr.all_in "0123456789"
            (String (PyInt.digit_char (n mod 10)) acc) = true) as H.
  { cbn [PyStr.all_in]. rewrite Hacc, andb_true_r. apply digit_char_digit.
    apply Z.mod_pos_bound. lia. }
  destruct (n / 10 =? 0)%Z; [done|by apply IH].
Qed.

Lemma int_str_free c n :
  (c = "?" \/ c = "#")%char -> PyStr.contains c (PyInt.str n) = false.
Proof.
  intros Hc. unfold PyInt.str.
  assert (forall f m, PyStr.contains c (PyInt.digits f m "") = false) as H.
  { intros f m. eapply all_in_contains; [by apply digits_digits|].
    by destruct Hc as [-> | ->]. }
  destruct (n <? 0)%Z; [|apply H]. cbn [PyStr.contains]. rewrite H.
  by destruct Hc as [-> | ->].
Qed.

Lemma splitnetloc_free s c :
  PyStr.contains c "/?#" = true ->
  PyStr.contains c (Urlparse._splitnetloc ("//" +:+ s) 2).1 = false.
Proof.
  intros Hc. unfold Urlparse._splitnetloc. cbn [fst].
  change (PyStr.drop 2 ("//" +:+ s)) with s.
  apply contains_take_find.
  assert (forall d, PyStr.find_from d 2 ("//" +:+ s)
                    = (fun i => 2 + i) <$> PyStr.find d s) as HF by done.
  cbn [fold_left]. rewrite !HF. clear HF.
  assert (c = "/" \/ c = "?" \/ c = "#")%char as Hd.
  { revert Hc. cbn [PyStr.contains].
    destruct (Ascii.eqb_spec c "/"); [by left|].
    destruct (Ascii.eqb_spec c "?"); [by right; left|].
    destruct (Ascii.eqb_spec c "#"); [by right; right|done]. }
  destruct Hd as [-> | [-> | ->] ];
    destruct (PyStr.find "/" s), (PyStr.find "?" s), (PyStr.find "#" s);
    cbn [fmap option_fmap option_map]; try done; lia.
Qed.

Lemma path_cut_free rest u1 fr u2 q :
  (if PyStr.contains "#" rest then Urlparse.cut "#" rest else (rest, ""))
    = (u1, fr) ->
  (if PyStr.contains "?" u1 then Urlparse.cut "?" u1 else (u1, ""))
    = (u2, q) ->
  PyStr.contains "?" u2 = false /\ PyStr.contains "#" u2 = false.
Proof.
  intros E1 E2.
  assert (PyStr.contains "#" u1 = false) as H1.
  { apply (f_equal fst) in E1. cbn [fst] in E1. subst u1.
    destruct (PyStr.contains "#" rest) eqn:Er; [apply cut_fst_free|done]. }
  apply (f_equal fst) in E2. cbn [fst] in E2. subst u2.
  destruct (PyStr.contains "?" u1) eqn:Er.
  - split; [apply cut_fst_free|by apply cut_fst_keeps].
  - done.
Qed.

Lemma split_after_scheme_free sch url p c :
  (c = "?" \/ c = "#")%char ->
  Urlparse.split_after_scheme sch url = Ok p ->
  Urlparse.scheme p = sch
  /\ PyStr.contains c (Urlparse.netloc p) = false
  /\ PyStr.contains c (Urlparse.path p) = false.
Proof.
  intros Hc. unfold Urlparse.split_after_scheme.
  assert (PyStr.contains c "/?#" = true) as Hc'
    by (by destruct Hc as [-> | ->]).
  destruct (String.eqb_spec (PyStr.take 2 url) "//") as [E|_].
  - assert (url = "//" +:+ PyStr.drop 2 url) as ->.
    { destruct url as [|a [|b t]]; try done. cbn in E. by injection E as -> ->. }
    pose proof (splitnetloc_free (PyStr.drop 2 url) c Hc') as Hnl.
    destruct (Urlparse._splitnetloc _ 2) as [nl rest]. cbn [fst] in Hnl.
    destruct (_ || _); [done|]. cbn [mbind result_bind].
    destruct (if PyStr.contains "#" rest then _ else _) as [u1 fr] eqn:E1.
    destruct (if PyStr.contains "?" u1 then _ else _) as [u2 q] eqn:E2.
    intros [= <-]. cbn. split; [done|]. split; [done|].
    destruct (path_cut_free _ _ _ _ _ E1 E2) as [H2 H3].
    by destruct Hc as [-> | ->].
  - cbn [mbind result_bind].
    destruct (if PyStr.contains "#" url then _ else _) as [u1 fr] eqn:E1.
    destruct (if PyStr.contains "?" u1 then _ else _) as [u2 q] eqn:E2.
    intros [= <-]. cbn. split; [done|]. split; [by destruct Hc as [-> | ->]|].
    destruct (path_cut_free _ _ _ _ _ E1 E2) as [H2 H3].
    by destruct Hc as [-> | ->].
Qed.

Lemma urlsplit_free url p c :
  (c = "?" \/ c = "#")%char ->
  Urlparse.urlsplit url = Ok p ->
  PyStr.contains c (Urlparse.scheme p) = false
  /\ PyStr.contains c (Urlparse.netloc p) = false
  /\ PyStr.contains c (Urlparse.path p) = false.
Proof.
  intros Hc. unfold Urlparse.urlsplit.
  assert (forall u, Urlparse.split_after_scheme "" u = Ok p ->
            PyStr.contains c (Urlparse.scheme p) = false
            /\ PyStr.contains c (Urlparse.netloc p) = false
            /\ PyStr.contains c (Urlparse.path p) = false) as H0.
  { intros u (-> & ? & ?)%(split_after_scheme_free _ _ _ c Hc). done. }
  assert (forall s u, PyStr.contains c s = false ->
            Urlparse.split_after_scheme (PyStr.lower s) u = Ok p ->
            PyStr.contains c (Urlparse.scheme p) = false
            /\ PyStr.contains c (Urlparse.netloc p) = false
            /\ PyStr.contains c (Urlparse.path p) = false) as H1.
  { intros s u Hs (-> & ? & ?)%(split_after_scheme_free _ _ _ c Hc).
    by rewrite lower_keeps. }
  destruct (PyStr.find ":" url) as [ [|i]|]; [apply H0| |apply H0].
  destruct (String.eqb_spec (PyStr.take (S i) url) "http") as [->|_].
  { apply H1. by destruct Hc as [-> | ->]. }
  destruct (PyStr.all_in Urlparse.scheme_chars (PyStr.take (S i) url)) eqn:Ea;
    [|apply H0].
  destruct (_ || _); [|apply H0]. apply H1.
  eapply all_in_contains; [done|]. by destruct Hc as [-> | ->].
Qed.

Lemma urlparse_free url p c :
  (c = "?" \/ c = "#")%char ->
  Urlparse.urlparse url = Ok p ->
  PyStr.contains c (Urlparse.scheme p) = false
  /\ PyStr.contains c (Urlparse.netloc p) = false
  /\ PyStr.contains c (Urlparse.path p) = false.
Proof.
  intros Hc. unfold Urlparse.urlparse.
  destruct (Urlparse.urlsplit url) as [r|e] eqn:E; [|done].
  cbn [mbind result_bind].
  destruct (urlsplit_free _ _ _ Hc E) as (Hs & Hn & Hp).
  destruct (if _ && _ then _ else _) as [u ps] eqn:E1.
  intros [= <-]. cbn. split; [done|]. split; [done|].
  apply (f_equal fst) in E1. cbn [fst] in E1. subst u.
  destruct (_ && _); [by apply splitparams_fst_keeps|done].
Qed.

Lemma hostname_free p c hn :
  (c = "?" \/ c = "#")%char ->
  PyStr.contains c (Urlparse.netloc p) = false ->
  Urlparse.hostname p = Some hn ->
  PyStr.contains c hn = false.
Proof.
  intros Hc Hn. unfold Urlparse.hostname.
  assert (PyStr.contains c
            (Urlparse.last_field (PyStr.split "@" (Urlparse.netloc p))) = false)
    as H by (by apply last_field_keeps, split_fields_keep).
  repeat case_match; intros [= <-]; rewrite lower_keeps by done.
  - by apply (contains_drop c 1), field_keeps, split_fields_keep.
  - by apply field_keeps, split_fields_keep.
  - done.
Qed.

Lemma urlunparse_free c sch nl pa :
  (c = "?" \/ c = "#")%char ->
  PyStr.contains c sch = false -> PyStr.contains c nl = false ->
  PyStr.contains c pa = false ->
  PyStr.contains c (Urlparse.urlunparse sch nl pa None None None) = false.
Proof.
  intros Hc Hs Hn Hp. unfold Urlparse.urlunparse, Urlparse.urlunsplit.
  assert (PyStr.contains c "/" = false /\ PyStr.contains c "//" = false
          /\ PyStr.contains c ":" = false) as (H1 & H2 & H3)
    by (by destruct Hc as [-> | ->]).
  repeat case_match; rewrite ?contains_app, ?Hs, ?Hn, ?Hp, ?H1, ?H2, ?H3; done.
Qed.

(** X12: whatever the input, a returned request URL has no query and no
    fragment: neither [?] nor [#] occurs in it. *)
Theorem X12_request_url_has_no_query_and_no_fragment url u :
  request_url url = Ok u ->
  PyStr.contains "?" u = false /\ PyStr.contains "#" u = false.
Proof.
  unfold request_url.
  destruct (Urlparse.urlparse url) as [p|e] eqn:E; [|done].
  cbn [mbind result_bind].
  destruct (Urlparse.port p) as [po|e]; [|done]. cbn [mbind result_bind].
  set (po' := if _ && _ then None else (if _ && _ then None else po)).
  assert (forall c, (c = "?" \/ c = "#")%char ->
            forall nl,
              match mapM id match po' with
                            | Some p0 => [Urlparse.hostname p; Some (PyInt.str p0)]
                            | None => [Urlparse.hostname p]
                            end with
              | Some parts => Ok (PyStr.join ":" parts)
              | None => Raise TypeError
              end = Ok nl -> PyStr.contains c nl = false) as Hnl.
  { intros c Hc nl. destruct (urlparse_free _ _ _ Hc E) as (_ & Hn & _).
    destruct (Urlparse.hostname p) as [hn|] eqn:Eh.
    - pose proof (hostname_free _ _ _ Hc Hn Eh) as Hh.
      destruct po' as [n|].
      + pose proof (int_str_free c n Hc) as Hi.
        generalize dependent (PyInt.str n). intros st Hi.
        cbn. intros [= <-].
        rewrite contains_app, Hh. cbn [PyStr.contains orb]. rewrite Hi.
        by destruct Hc as [-> | ->].
      + cbn. by intros [= <-].
    - destruct po'; cbn; done. }
  destruct (match mapM id _ with Some _ => _ | None => _ end) as [nl|e] eqn:En;
    [|done].
  cbn [mbind result_bind]. intros [= <-].
  split; apply urlunparse_free; try tauto.
  all: try (eapply Hnl; [|done]; tauto).
  all: try (by edestruct (urlparse_free url p "?") as (? & ? & ?); [left|..]).
  all: try (by edestruct (urlparse_free url p "#") as (? & ? & ?); [right|..]).
Qed.

Lemma X12_witness :
  request_url "HTTP://Example.com:80/a;b?x=1#frag" = Ok "http://example.com/a"
  /\ PyStr.contains "?" "http://example.com/a" = false
  /\ PyStr.contains "#" "http://example.com/a" = false.
Proof.
  assert (request_url "HTTP://Example.com:80/a;b?x=1#frag"
          = Ok "http://example.com/a") as H by (vm_compute; reflexivity).
  split; [exact H|].
  exact (X12_request_url_has_no_query_and_no_fragment _ _ H).
Defined.

(** ** Canonicalizing twice *)

Lemma lower_char_idemp c : PyStr.lower_char (PyStr.lower_char c) = PyStr.lower_char c.
Proof. destruct c as [[] [] [] [] [] [] [] []]; reflexivity. Qed.

Lemma lower_idemp s : PyStr.lower (PyStr.lower s) = PyStr.lower s.
Proof.
  induction s as [|c s IH]; [done|].
  cbn [PyStr.lower PyStr.map_chars]. fold (PyStr.lower s).
  fold (PyStr.lower (PyStr.lower s)). by rewrite lower_char_idemp, IH.
Qed.

Lemma lower_char_scheme c :
  PyStr.mem c Urlparse.scheme_chars = true ->
  PyStr.mem (PyStr.lower_char c) Urlparse.scheme_chars = true.
Proof. destruct c as [[] [] [] [] [] [] [] []]; vm_compute; congruence. Qed.

Lemma lower_scheme_chars s :
  PyStr.all_in Urlparse.scheme_chars s = true ->
  PyStr.all_in Urlparse.scheme_chars (PyStr.lower s) = true.
Proof.
  induction s as [|c s IH]; [done|].
  cbn [PyStr.lower PyStr.map_chars PyStr.all_in]. fold (PyStr.lower s).
  intros [Hc Hs]%andb_true_iff. by rewrite lower_char_scheme, IH.
Qed.

Lemma lower_char_delimiter c d :
  PyStr.contains c "/?#@[]:" = true ->
  Ascii.eqb c (PyStr.lower_char d) = Ascii.eqb c d.
Proof.
  intros Hc.
  assert (c = "/" \/ c = "?" \/ c = "#" \/ c = "@" \/ c = "[" \/ c = "]"
          \/ c = ":")%char as Hd.
  { revert Hc. cbn [PyStr.contains].
    destruct (Ascii.eqb_spec c "/"); [tauto|].
    destruct (Ascii.eqb_spec c "?"); [tauto|].
    destruct (Ascii.eqb_spec c "#"); [tauto|].
    destruct (Ascii.eqb_spec c "@"); [tauto|].
    destruct (Ascii.eqb_spec c "["); [tauto|].
    destruct (Ascii.eqb_spec c "]"); [tauto|].
    destruct (Ascii.eqb_spec c ":"); [tauto|done]. }
  repeat (destruct Hd as [-> | Hd];
          [destruct d as [[] [] [] [] [] [] [] []]; reflexivity|]).
  subst c. destruct d as [[] [] [] [] [] [] [] []]; reflexivity.
Qed.

Lemma lower_delimiters s :
  Url.none_of "/?#@[]:" s = true -> Url.none_of "/?#@[]:" (PyStr.lower s) = true.
Proof.
  intros H. apply none_of_intro. intros c Hc.
  pose proof (none_of_contains _ _ c H Hc) as Hs. clear H.
  induction s as [|d s IH]; [done|]. revert Hs.
  cbn [PyStr.lower PyStr.map_chars PyStr.contains]. fold (PyStr.lower s).
  rewrite lower_char_delimiter by done.
  destruct (Ascii.eqb c d); [done|]. apply IH.
Qed.

(** [int(str(n))] is [n]. *)
Lemma of_digits_app a s t :
  PyInt.of_digits a (s +:+ t)
  = match PyInt.of_digits a s with
    | Some b => PyInt.of_digits b t
    | None => None
    end.
Proof.
  revert a. induction s as [|c s IH]; intros a; [done|].
  cbn [String.append PyInt.of_digits]. destruct (PyStr.is_digit c); [apply IH|done].
Qed.

Lemma digits_acc fuel n acc :
  PyInt.digits fuel n acc = PyInt.digits fuel n "" +:+ acc.
Proof.
  revert n acc. induction fuel as [|fuel IH]; intros n acc; [done|].
  cbn [PyInt.digits]. destruct (n / 10 =? 0)%Z; [done|].
  rewrite (IH _ (String _ acc)), (IH _ (String _ "")).
  by rewrite append_assoc.
Qed.

Lemma digit_char_value d :
  (0 <= d < 10)%Z ->
  PyStr.is_digit (PyInt.digit_char d) = true
  /\ (Z.of_nat (nat_of_ascii (PyInt.digit_char d)) - 48 = d)%Z.
Proof.
  intros H.
  assert (d = 0 \/ d = 1 \/ d = 2 \/ d = 3 \/ d = 4 \/ d = 5 \/ d = 6
          \/ d = 7 \/ d = 8 \/ d = 9)%Z as Hd by lia.
  repeat (destruct Hd as [-> | Hd]; [by vm_compute|]). subst. by vm_compute.
Qed.

Lemma of_digits_str fuel n :
  (0 <= n < 2 ^ Z.of_nat fuel)%Z ->
  PyInt.of_digits 0 (PyInt.digits fuel n "") = Some n.
Proof.
  revert n. induction fuel as [|fuel IH]; intros n Hn.
  { change (2 ^ Z.of_nat 0)%Z with 1%Z in Hn. by replace n with 0%Z by lia. }
  cbn [PyInt.digits].
  assert (0 <= n mod 10 < 10)%Z as Hd by (apply Z.mod_pos_bound; lia).
  destruct (digit_char_value _ Hd) as [Hdig Hval].
  destruct (Z.eqb_spec (n / 10) 0) as [E|E].
  - cbn [PyInt.of_digits]. rewrite Hdig, Hval. f_equal.
    pose proof (Z.div_mod n 10). lia.
  - rewrite digits_acc, of_digits_app, IH.
    + cbn [PyInt.of_digits]. rewrite Hdig, Hval. f_equal.
      pose proof (Z.div_mod n 10). lia.
    + rewrite Nat2Z.inj_succ, Z.pow_succ_r in Hn by lia.
      split; [apply Z.div_pos; lia|].
      apply Z.div_lt_upper_bound; lia.
Qed.

Lemma int_of_str_str n :
  (0 <= n)%Z -> PyInt.of_digits 0 (PyInt.str n) = Some n.
Proof.
  intros Hn. unfold PyInt.str.
  assert ((n <? 0)%Z = false) as -> by lia.
  apply of_digits_str. split; [done|].
  rewrite Nat2Z.inj_succ, Z2Nat.id by apply Z.log2_nonneg.
  destruct (Z.eq_dec n 0%Z) as [->|]; [done|].
  apply Z.log2_spec. lia.
Qed.

Lemma digits_nonempty fuel n acc :
  Url.nonempty acc = true -> Url.nonempty (PyInt.digits fuel n acc) = true.
Proof.
  revert n acc. induction fuel as [|fuel IH]; intros n acc H; [done|].
  cbn [PyInt.digits]. destruct (n / 10 =? 0)%Z; [done|]. by apply IH.
Qed.

Lemma str_digits n :
  (0 <= n)%Z ->
  Url.nonempty (PyInt.str n) = true
  /\ PyStr.all_in "0123456789" (PyInt.str n) = true.
Proof.
  intros Hn. unfold PyInt.str. assert ((n <? 0)%Z = false) as -> by lia.
  split; [|by apply digits_digits].
  cbn [PyInt.digits]. destruct (n / 10 =? 0)%Z; [done|]. by apply digits_nonempty.
Qed.

Lemma find_None c s : PyStr.find c s = None <-> PyStr.contains c s = false.
Proof.
  induction s as [|d s IH]; [done|]. cbn [PyStr.find PyStr.contains].
  destruct (Ascii.eqb c d); [done|]. rewrite <- IH.
  by destruct (PyStr.find c s).
Qed.

Lemma rfind_None c s : PyStr.rfind c s = None <-> PyStr.contains c s = false.
Proof.
  induction s as [|d s IH]; [done|]. cbn [PyStr.rfind PyStr.contains].
  destruct (PyStr.rfind c s), (Ascii.eqb c d); cbn [orb]; try done.
  split; [done|]. by intros H%IH.
Qed.

(** The last [c] of a string is the last [c] of every prefix that reaches it. *)
Lemma rfind_take c s i j :
  PyStr.rfind c s = Some j -> j < i -> PyStr.rfind c (PyStr.take i s) = Some j.
Proof.
  revert i j. induction s as [|d s IH]; intros i j; [done|].
  cbn [PyStr.rfind]. destruct (PyStr.rfind c s) as [j'|] eqn:E.
  - intros [= <-] Hi. destruct i as [|i]; [lia|].
    cbn [PyStr.take PyStr.rfind]. by rewrite (IH i j') by (done || lia).
  - destruct (Ascii.eqb c d) eqn:Ec; [|done]. intros [= <-] Hi.
    destruct i as [|i]; [lia|]. cbn [PyStr.take PyStr.rfind].
    apply rfind_None in E.
    by rewrite (proj2 (rfind_None c _) (contains_take c i s E)), Ec.
Qed.

Lemma rfind_at c s j :
  PyStr.rfind c s = Some j -> exists t, PyStr.drop j s = String c t.
Proof.
  revert j. induction s as [|d s IH]; intros j; [done|].
  cbn [PyStr.rfind]. destruct (PyStr.rfind c s) as [j'|].
  - intros [= <-]. cbn [PyStr.drop]. by apply IH.
  - destruct (Ascii.eqb_spec c d) as [->|]; [|done]. intros [= <-]. by exists s.
Qed.

Lemma drop_take j k s :
  PyStr.drop j (PyStr.take (j + k) s) = PyStr.take k (PyStr.drop j s).
Proof.
  revert s. induction j as [|j IH]; intros s; [done|].
  destruct s as [|d s]; [by destruct k|]. cbn [Nat.add PyStr.take PyStr.drop].
  apply IH.
Qed.

(** Cutting the parameters off a path that has some leaves a path from which
    no more are cut. *)
Lemma splitparams_idemp s :
  PyStr.contains ";" s = true ->
  PyStr.contains ";" (Urlparse._splitparams s).1 = true ->
  (Urlparse._splitparams (Urlparse._splitparams s).1).1
  = (Urlparse._splitparams s).1.
Proof.
  intros Hs. remember (Urlparse._splitparams s).1 as t eqn:Et.
  unfold Urlparse._splitparams in Et.
  destruct (PyStr.contains "/" s) eqn:Esl.
  - destruct (PyStr.rfind "/" s) as [j|] eqn:Ej;
      [|apply rfind_None in Ej; congruence].
    cbn [default from_option id] in Et. unfold PyStr.find_from in Et.
    destruct (PyStr.find ";" (PyStr.drop j s)) as [k|] eqn:Ek;
      cbn [fmap option_fmap option_map fst] in Et; subst t.
    + intros _. destruct (rfind_at _ _ _ Ej) as [t Ht].
      assert (0 < k) as Hk.
      { rewrite Ht in Ek. cbn [PyStr.find] in Ek.
        change (Ascii.eqb ";" "/") with false in Ek. cbv iota in Ek.
        destruct (PyStr.find ";" t); [injection Ek as <-; lia|done]. }
      pose proof (rfind_take _ _ (j + k) _ Ej ltac:(lia)) as Hr.
      unfold Urlparse._splitparams.
      assert (PyStr.contains "/" (PyStr.take (j + k) s) = true) as ->.
      { destruct (PyStr.contains "/" (PyStr.take (j + k) s)) eqn:E; [done|].
        apply rfind_None in E. congruence. }
      rewrite Hr. cbn [default from_option id]. unfold PyStr.find_from.
      rewrite drop_take.
      assert (PyStr.find ";" (PyStr.take k (PyStr.drop j s)) = None) as ->;
        [|reflexivity].
      apply find_None, contains_take_find. by rewrite Ek.
    + intros _. unfold Urlparse._splitparams. rewrite Esl, Ej.
      cbn [default from_option id]. unfold PyStr.find_from. by rewrite Ek.
  - destruct (PyStr.find ";" s) as [i|] eqn:Ei; cbn [fst] in Et; subst t.
    + intros H. rewrite contains_take_find in H; [done|by rewrite Ei].
    + apply find_None in Ei. congruence.
Qed.

Lemma port_number_str n :
  (0 <= n)%Z -> Url.port_number (PyInt.str n) = n.
Proof. intros Hn. unfold Url.port_number. by rewrite int_of_str_str. Qed.

(** The canonical URL of a well-formed URL is itself the rendering of a
    well-formed URL, which is its own canonical form. *)
Lemma canonical_fixed a :
  Url.wf a = true ->
  exists b, Url.wf b = true /\ Url.render b = Url.canonical a
            /\ Url.canonical b = Url.canonical a.
Proof.
  intros Hwf0. pose proof (wf_unpack a Hwf0) as Hwf.
  set (cond n :=
         (String.eqb (PyStr.lower (Url.scheme a)) "http" && (n =? 80)%Z)
         || (String.eqb (PyStr.lower (Url.scheme a)) "https" && (n =? 443)%Z)
         || (65535 <? n)%Z).
  set (po := match Url.port a with
             | None => None
             | Some ds => if cond (Url.port_number ds) then None
                          else Some (PyInt.str (Url.port_number ds))
             end).
  exists (Url.mk (PyStr.lower (Url.scheme a)) (PyStr.lower (Url.host a)) po
                 (Url.kept_path a) None None).
  assert (forall ds, Url.port a = Some ds -> (0 <= Url.port_number ds)%Z) as Hpos.
  { intros ds Hds. pose proof (wf_port a Hwf) as Hp. rewrite Hds in Hp.
    destruct Hp as [H1 H2]. by destruct (of_str_digits ds H1 H2) as [_ ?]. }
  assert (Url.part ":" po = Url.kept_port a) as Hport.
  { unfold Url.kept_port. subst po. destruct (Url.port a) as [ds|]; [|done].
    fold (cond (Url.port_number ds)). by destruct (cond _). }
  split; [|split].
  - unfold Url.wf. cbn [Url.scheme Url.host Url.port Url.path Url.query].
    assert (Url.nonempty (PyStr.lower (Url.scheme a)) = true) as ->
      by (pose proof (wf_scheme_nonempty a Hwf); by destruct (Url.scheme a)).
    assert (Url.nonempty (PyStr.lower (Url.host a)) = true) as ->
      by (pose proof (wf_host_nonempty a Hwf); by destruct (Url.host a)).
    rewrite lower_scheme_chars by apply Hwf.
    rewrite lower_delimiters by apply Hwf.
    assert (match po with
            | Some ds => Url.nonempty ds && PyStr.all_in "0123456789" ds
            | None => true
            end = true) as ->.
    { subst po. destruct (Url.port a) as [ds|] eqn:Eds; [|done].
      destruct (cond _); [done|].
      destruct (str_digits (Url.port_number ds)) as [-> ->]; [by apply Hpos|done]. }
    assert (Url.none_of "?#" (Url.kept_path a) = true) as ->.
    { apply none_of_intro. intros c Hc.
      pose proof (none_of_contains _ _ c (wf_path_chars a Hwf) Hc) as Hp.
      unfold Url.kept_path. destruct (_ && _); [by apply splitparams_fst_keeps|done]. }
    by destruct (kept_path_abs a Hwf) as [-> | [r ->] ].
  - unfold Url.render, Url.canonical.
    cbn [Url.scheme Url.host Url.port Url.path Url.query Url.fragment Url.part].
    by rewrite Hport, !append_nil_r.
  - assert (Url.kept_port
              (Url.mk (PyStr.lower (Url.scheme a)) (PyStr.lower (Url.host a)) po
                      (Url.kept_path a) None None) = Url.kept_port a) as H1.
    { rewrite <- Hport. unfold Url.kept_port. cbn [Url.port Url.scheme].
      rewrite lower_idemp.
      subst po. destruct (Url.port a) as [ds|] eqn:Eds; [|done].
      destruct (cond (Url.port_number ds)) eqn:Ec; [done|].
      cbn [Url.part]. rewrite !port_number_str by (by apply Hpos).
      unfold cond in Ec. by rewrite Ec. }
    assert (Url.kept_path
              (Url.mk (PyStr.lower (Url.scheme a)) (PyStr.lower (Url.host a)) po
                      (Url.kept_path a) None None) = Url.kept_path a) as H2.
    { unfold Url.kept_path at 1. cbn [Url.scheme Url.path]. rewrite lower_idemp.
      unfold Url.kept_path.
      destruct (Urlparse.str_in _ _); [|done]. cbn [andb].
      destruct (PyStr.contains ";" (Url.path a)) eqn:Es; [|by rewrite Es].
      destruct (PyStr.contains ";" (Urlparse._splitparams (Url.path a)).1) eqn:Et;
        [|done].
      by apply splitparams_idemp. }
    unfold Url.canonical. rewrite H1, H2. cbn [Url.scheme Url.host].
    by rewrite !lower_idemp.
Qed.

(** X13: on an absolute URL of the common shape the canonicalizer is
    idempotent: what it returns it returns again when applied to it. *)
Theorem X13_request_url_is_idempotent a :
  Url.wf a = true ->
  exists u, request_url (Url.render a) = Ok u /\ request_url u = Ok u.
Proof.
  intros Hwf. exists (Url.canonical a). split; [by apply request_url_render|].
  destruct (canonical_fixed a Hwf) as (b & Hb & <- & Hc).
  rewrite <- Hc at 2. by apply request_url_render.
Qed.

Lemma X13_witness :
  let a := Url.mk "HTTPS" "Example.COM" (Some "0443") "/a;p/b;q"
                  (Some "x=1") (Some "top") in
  Url.render a = "HTTPS://Example.COM:0443/a;p/b;q?x=1#top"
  /\ exists u, request_url (Url.render a) = Ok u /\ request_url u = Ok u.
Proof.
  intros a. split; [reflexivity|].
  apply (X13_request_url_is_idempotent a). reflexivity.
Defined.

(** ** The URL of a signed GET request *)

Lemma serialized_alphabet self utils sig :
  PyStr.all_in (Quoted.alphabet +:+ "&=") (serialized self utils sig) = true.
Proof.
  rewrite serialized_form.
  cbn [oauth_parameter_set app map fst snd]. rewrite !join_cons.
  cbn [PyStr.join].
  rewrite !all_in_app, !quote_plus_alphabet_wider. reflexivity.
Qed.

Lemma none_of_app chars s t :
  Url.none_of chars s = true -> Url.none_of chars t = true ->
  Url.none_of chars (s +:+ t) = true.
Proof.
  intros Hs Ht. apply none_of_intro. intros c Hc.
  by rewrite contains_app, (none_of_contains _ _ c Hs Hc),
    (none_of_contains _ _ c Ht Hc).
Qed.

Lemma render_appended p a :
  Url.render (with_appended p a) = Url.render a +:+ "?" +:+ p.
Proof.
  unfold Url.render, with_appended. rewrite !append_assoc.
  destruct (Url.fragment a) as [f|], (Url.query a) as [q|];
    cbn [Url.scheme Url.host Url.port Url.path Url.query Url.fragment Url.part];
    rewrite ?append_nil_r; try reflexivity.
Qed.

Lemma wf_appended p a :
  Url.none_of "#" p = true -> Url.wf a = true ->
  Url.wf (with_appended p a) = true.
Proof.
  intros Hp. unfold Url.wf, with_appended. rewrite !andb_true_iff.
  intros [[[[[[[H1 H2] H3] H4] H5] H6] H7] H8].
  destruct (Url.fragment a) as [f|], (Url.query a) as [q|];
    cbn [Url.scheme Url.host Url.port Url.path Url.query Url.fragment];
    repeat split; try done.
  by apply none_of_app; [|apply none_of_app].
Qed.

Lemma canonical_appended p a :
  Url.canonical (with_appended p a) = Url.canonical a.
Proof.
  unfold with_appended.
  by destruct (Url.fragment a) as [f|], (Url.query a) as [q|].
Qed.

Lemma serialized_no_hash self utils sig :
  Url.none_of "#" (serialized self utils sig) = true.
Proof.
  apply none_of_intro. intros c Hc.
  eapply all_in_contains; [apply serialized_alphabet|].
  revert Hc. cbn [PyStr.contains]. by destruct (Ascii.eqb_spec c "#") as [->|].
Qed.

(** X14: signing a GET request does not change the URL that is signed: the
    URL that the call leaves in the request canonicalizes to what the
    original URL canonicalizes to, whether that had a query, a fragment or
    neither. *)
Theorem X14_signed_get_url_has_the_same_request_url self utils r r' a :
  Url.wf a = true -> url r = Url.render a -> method r = "GET" ->
  HMACSHA1Auth.__call__ self utils r = Ok r' ->
  request_url (url r') = request_url (url r)
  /\ request_url (url r') = Ok (Url.canonical a).
Proof.
  intros Hwf Hu Hm. rewrite hmac_call_unfold, Hm, Hu.
  rewrite (request_url_render a Hwf). cbv zeta.
  change ("GET" =? "GET")%string with true. cbv iota.
  set (p := serialized self utils _). intros [= <-]. cbn [url set_url].
  change (Url.render a +:+ String "?" p) with (Url.render a +:+ "?" +:+ p).
  rewrite <- render_appended.
  rewrite (request_url_render _ (wf_appended p a (serialized_no_hash _ _ _) Hwf)).
  by rewrite canonical_appended.
Qed.

Lemma X14_witness :
  let self := AuthBase.__init__ "ck" "cs" None None "oob" in
  let utils := mkUtils 1191242096 "n" in
  let a := Url.mk "http" "example.com" None "/r" (Some "id=123") (Some "top") in
  let r := mkRequest "GET" "http://example.com/r?id=123#top" [] [] [] in
  exists r',
    HMACSHA1Auth.__call__ self utils r = Ok r'
    /\ request_url (url r') = request_url (url r)
    /\ request_url (url r') = Ok (Url.canonical a).
Proof.
  intros self utils a r.
  destruct (HMACSHA1Auth.__call__ self utils r) as [r'|e] eqn:E.
  - exists r'. split; [reflexivity|].
    exact (X14_signed_get_url_has_the_same_request_url self utils r r' a
             eq_refl eq_refl eq_refl E).
  - exfalso. revert E. rewrite hmac_call_unfold.
    assert (request_url (url r) = Ok "http://example.com/r") as ->
      by (vm_compute; reflexivity).
    done.
Defined.

(** X15: how the URL of a signed GET request is read.  When the original URL
    has a fragment, the OAuth parameters are in the fragment and the query is
    the original one; when it has a query and no fragment, they follow the
    last value of the query after a second question mark; only when it has
    neither are they the query. *)
Theorem X15_where_the_attached_parameters_are_read self utils r r' a :
  Url.wf a = true -> url r = Url.render a -> method r = "GET" ->
  HMACSHA1Auth.__call__ self utils r = Ok r' ->
  exists p parsed,
    url r' = url r +:+ "?" +:+ p
    /\ count_char "=" p = 7
    /\ Urlparse.urlparse (url r') = Ok parsed
    /\ match Url.fragment a, Url.query a with
       | Some f, q =>
           Urlparse.query parsed = default "" q
           /\ Urlparse.fragment parsed = f +:+ "?" +:+ p
       | None, Some q =>
           Urlparse.query parsed = q +:+ "?" +:+ p
           /\ Urlparse.fragment parsed = ""
       | None, None =>
           Urlparse.query parsed = p /\ Urlparse.fragment parsed = ""
       end.
Proof.
  intros Hwf Hu Hm. rewrite hmac_call_unfold, Hm, Hu.
  rewrite (request_url_render a Hwf). cbv zeta.
  change ("GET" =? "GET")%string with true. cbv iota.
  set (p := serialized self utils _). intros [= <-]. cbn [url set_url].
  exists p. eexists. split; [done|]. split.
  { subst p. rewrite serialized_form.
    generalize (signature_of self
                  (base_string self utils r (Url.canonical a))). intros sig.
    cbn [oauth_parameter_set app map fst snd]. rewrite !join_cons.
    cbn [PyStr.join].
    by rewrite !count_char_app, !(count_char_quoted "="). }
  change (Url.render a +:+ String "?" p) with (Url.render a +:+ "?" +:+ p).
  rewrite <- render_appended.
  rewrite (urlparse_render _
             (wf_unpack _ (wf_appended p a (serialized_no_hash _ _ _) Hwf))).
  split; [reflexivity|]. cbn [Urlparse.query Urlparse.fragment].
  unfold with_appended.
  by destruct (Url.fragment a) as [f|], (Url.query a) as [q|].
Qed.

Lemma X15_witness :
  let self := AuthBase.__init__ "ck" "cs" None None "oob" in
  let utils := mkUtils 1191242096 "n" in
  let a := Url.mk "http" "example.com" None "/r" (Some "id=123") (Some "top") in
  let r := mkRequest "GET" "http://example.com/r?id=123#top" [] [] [] in
  exists r' p parsed,
    HMACSHA1Auth.__call__ self utils r = Ok r'
    /\ url r' = url r +:+ "?" +:+ p
    /\ count_char "=" p = 7
    /\ Urlparse.urlparse (url r') = Ok parsed
    /\ Urlparse.query parsed = "id=123"
    /\ Urlparse.fragment parsed = "top" +:+ "?" +:+ p.
Proof.
  intros self utils a r.
  destruct (HMACSHA1Auth.__call__ self utils r) as [r'|e] eqn:E.
  - destruct (X15_where_the_attached_parameters_are_read self utils r r' a
                eq_refl eq_refl eq_refl E) as (p & parsed & H1 & H2 & H3 & H4 & H5).
    by exists r', p, parsed.
  - exfalso. revert E. rewrite hmac_call_unfold.
    assert (request_url (url r) = Ok "http://example.com/r") as ->
      by (vm_compute; reflexivity).
    done.
Defined.
